(** * Record store of the CRUD server: [DatabaseManager] of [src/server.py]

    A shallow embedding of the five operations of [DatabaseManager]
    ([create_user], [read_user], [read_all_users], [update_user],
    [delete_user]) over a model of the single SQLite table [users], and the
    properties of the specification proved (or refuted) on it.

    Conventions of the model.
    - A Python [str] is a [string]; its characters are the code points below
      256, and [is_space] is Python's whitespace table on that range.
    - An argument is a [value]: [None], an [int] or a [str], so that the
      [isinstance] tests and the truthiness tests of the source are written
      as they are.
    - The database is the list of rows of [users] together with the
      [sqlite_sequence] counter of the AUTOINCREMENT key.  An INTEGER of the
      engine has 64 bits: binding a Python [int] outside that range raises
      [OverflowError] before the statement runs, and an INSERT finds no id
      left once the largest one, 2^63 - 1, was used
      ([sqlite3.OperationalError]).  The other failure of the engine that is
      modelled is the violation of the UNIQUE constraint on [email]
      ([sqlite3.IntegrityError]).
    - Every write statement of the source is followed at once by
      [conn.commit()], so a statement that succeeds is durable and a
      statement that fails leaves the table as it was.
    - The run-time part of the state counts the connections that are open and
      logs every statement handed to the engine.
    - The tool functions around the manager turn its answer or its
      exception into text; [json.dumps] is a parameter of their model. *)

From Stdlib Require Import List ZArith Lia Bool Ascii String.
From Stdlib Require Import Permutation Sorted DecimalString.
Import ListNotations.

Local Open Scope string_scope.
Local Open Scope Z_scope.

(** ** Python strings *)

Module PyStr.

(** Whitespace as [str.strip()] sees it: TAB..CR, FS..US, space, NEL, NBSP. *)
Definition is_space (c : ascii) : bool :=
  let n := nat_of_ascii c in
  ((9 <=? n) && (n <=? 13) || (28 <=? n) && (n <=? 32)
   || (n =? 133) || (n =? 160))%nat.

Fixpoint lstrip (s : string) : string :=
  match s with
  | EmptyString => EmptyString
  | String c s' => if is_space c then lstrip s' else s
  end.

Fixpoint rstrip (s : string) : string :=
  match s with
  | EmptyString => EmptyString
  | String c s' =>
      match rstrip s' with
      | EmptyString => if is_space c then EmptyString else String c EmptyString
      | t => String c t
      end
  end.

(** [s.strip()] *)
Definition strip (s : string) : string := rstrip (lstrip s).

(** [c in s] for a one-character [c] *)
Fixpoint contains (c : ascii) (s : string) : bool :=
  match s with
  | EmptyString => false
  | String d s' => Ascii.eqb c d || contains c s'
  end.

(** [len(s)] *)
Definition len (s : string) : Z := Z.of_nat (String.length s).

(** [str(n)] for an integer *)
Definition str_of_int (n : Z) : string := NilZero.string_of_int (Z.to_int n).

End PyStr.

(** ** Python values reaching the manager *)

Inductive value : Type :=
| VNone
| VInt (z : Z)
| VStr (s : string).

(** Truthiness: [None], [0] and the empty string are false. *)
Definition truthy (v : value) : bool :=
  match v with
  | VNone => false
  | VInt z => negb (z =? 0)
  | VStr s => negb (s =? "")%string
  end.

Definition isinstance_str (v : value) : bool :=
  match v with VStr _ => true | _ => false end.

Definition isinstance_int (v : value) : bool :=
  match v with VInt _ => true | _ => false end.

(** The payload of a value; read only behind the matching [isinstance]
    guard, as the short-circuit [or] of the source guarantees. *)
Definition as_str (v : value) : string :=
  match v with VStr s => s | _ => "" end.

Definition as_int (v : value) : Z :=
  match v with VInt z => z | _ => 0 end.

(** ** The table [users] and the state of the store *)

(** One row of [users]; [created_at] is the only nullable column. *)
Record Row : Type := mkRow {
  col_id : Z;
  col_name : string;
  col_email : string;
  col_created_at : option string
}.

(** The statements the manager hands to the engine, parameters bound. *)
Inductive statement : Type :=
| INSERT_user (name email : string)
| SELECT_by_id (id : Z)
| SELECT_page (limit offset : Z)
| SELECT_count
| UPDATE_user (name email : option string) (id : Z)
| DELETE_user (id : Z).

Record db : Type := mkDb {
  users : list Row;        (* the rows of the table *)
  seq : Z;                 (* sqlite_sequence: largest id ever assigned *)
  conns : nat;             (* connections opened and not yet closed *)
  log : list statement     (* statements executed so far, oldest first *)
}.

(** The database file right after [init_database] created the schema. *)
Definition empty_db : db := mkDb [] 0 0 [].

Definition set_users (us : list Row) (st : db) : db :=
  mkDb us (seq st) (conns st) (log st).
Definition set_seq (n : Z) (st : db) : db :=
  mkDb (users st) n (conns st) (log st).
Definition set_conns (n : nat) (st : db) : db :=
  mkDb (users st) (seq st) n (log st).
Definition add_log (q : statement) (st : db) : db :=
  mkDb (users st) (seq st) (conns st) (log st ++ [q]).

(** ** Exceptions and the monad of the manager *)

Inductive exn : Type :=
| ValueError (msg : string)
| TypeError (msg : string)
| OverflowError (msg : string)
| IntegrityError (msg : string)      (* a subclass of sqlite3.Error *)
| OperationalError (msg : string).   (* a subclass of sqlite3.Error *)

Inductive outcome (A : Type) : Type :=
| Return (a : A)
| Raise (e : exn).
Arguments Return {A} a.
Arguments Raise {A} e.

Definition M (A : Type) : Type := db -> outcome A * db.

Definition ret {A} (a : A) : M A := fun st => (Return a, st).
Definition raise {A} (e : exn) : M A := fun st => (Raise e, st).
Definition bind {A B} (m : M A) (k : A -> M B) : M B :=
  fun st => match m st with
            | (Return a, st') => k a st'
            | (Raise e, st') => (Raise e, st')
            end.

(** [try: m except ... as e: h e] *)
Definition try_except {A} (m : M A) (h : exn -> M A) : M A :=
  fun st => match m st with
            | (Return a, st') => (Return a, st')
            | (Raise e, st') => h e st'
            end.

Notation "x <- m ;; k" := (bind m (fun x => k))
  (at level 61, m at next level, right associativity).
Notation "m ;; k" := (bind m (fun _ => k))
  (at level 61, right associativity).

(** ** The engine: what SQLite does with each statement *)

Module Sqlite.

Definition id_eqb (i : Z) (r : Row) : bool := col_id r =? i.

Definition max_id (rs : list Row) : Z :=
  fold_right (fun r m => Z.max (col_id r) m) 0 rs.

(** AUTOINCREMENT: one more than the largest id that ever existed. *)
Definition next_rowid (st : db) : Z := Z.max (seq st) (max_id (users st)) + 1.

(** The 64-bit signed INTEGER of the engine. *)
Definition max_rowid : Z := 9223372036854775807.
Definition min_int64 : Z := -9223372036854775808.

Definition fits_int64 (z : Z) : bool := (min_int64 <=? z) && (z <=? max_rowid).

(** The largest id was used, in the table or before: no id is left. *)
Definition exhausted (st : db) : bool :=
  max_rowid <=? Z.max (seq st) (max_id (users st)).

Definition email_taken (e : string) (rs : list Row) : bool :=
  existsb (fun r => (col_email r =? e)%string) rs.

(** The UNIQUE index seen from row [i]: [e] belongs to another row. *)
Definition email_taken_by_other (e : string) (i : Z) (rs : list Row) : bool :=
  existsb (fun r => (col_email r =? e)%string && negb (col_id r =? i)) rs.

Definition unique_failed : exn :=
  IntegrityError "UNIQUE constraint failed: users.email".

Definition full : exn := OperationalError "database or disk is full".

Definition too_large : exn :=
  OverflowError "Python int too large to convert to SQLite INTEGER".

(** [sqlite3.connect] and [conn.close()] *)
Definition connect : M unit :=
  fun st => (Return tt, set_conns (S (conns st)) st).
Definition close : M unit :=
  fun st => (Return tt, set_conns (Nat.pred (conns st)) st).

(** [conn.commit()]: statements are applied as they run, see above. *)
Definition commit : M unit := ret tt.

Definition logged (q : statement) : M unit :=
  fun st => (Return tt, add_log q st).

(** [cursor.execute] binds an [int] parameter before the statement runs. *)
Definition bind_int (z : Z) : M unit :=
  if fits_int64 z then ret tt else raise too_large.

(** INSERT INTO users (name, email) VALUES (?, ?), answering [lastrowid];
    [now] is CURRENT_TIMESTAMP at the time of the call.  The id is drawn
    first, the UNIQUE index is checked after. *)
Definition insert (now : string) (name email : string) : M Z :=
  logged (INSERT_user name email) ;;
  fun st =>
    if exhausted st then (Raise full, st)
    else if email_taken email (users st) then (Raise unique_failed, st)
    else
      let i := next_rowid st in
      (Return i,
       set_seq i (set_users (users st ++ [mkRow i name email (Some now)]) st)).

(** SELECT * FROM users WHERE id = ?, then [fetchone()] *)
Definition select_by_id (i : Z) : M (option Row) :=
  bind_int i ;;
  logged (SELECT_by_id i) ;;
  fun st => (Return (find (id_eqb i) (users st)), st).

(** ORDER BY id DESC, as an insertion sort on the key. *)
Fixpoint insert_desc (r : Row) (rs : list Row) : list Row :=
  match rs with
  | [] => [r]
  | x :: rs' => if col_id x <=? col_id r then r :: rs
                else x :: insert_desc r rs'
  end.

Definition order_by_id_desc (rs : list Row) : list Row :=
  fold_right insert_desc [] rs.

(** LIMIT ? OFFSET ?: a negative limit is no limit, a negative offset is 0. *)
Definition window (limit offset : Z) (rs : list Row) : list Row :=
  let rest := skipn (Z.to_nat offset) rs in
  if limit <? 0 then rest else firstn (Z.to_nat limit) rest.

(** SELECT * FROM users ORDER BY id DESC LIMIT ? OFFSET ?, then [fetchall()] *)
Definition select_page (limit offset : Z) : M (list Row) :=
  bind_int limit ;;
  bind_int offset ;;
  logged (SELECT_page limit offset) ;;
  fun st => (Return (window limit offset (order_by_id_desc (users st))), st).

(** SELECT COUNT( * ) as count FROM users, then [fetchone()["count"]] *)
Definition select_count : M Z :=
  logged SELECT_count ;;
  fun st => (Return (Z.of_nat (List.length (users st))), st).

Definition assign (name email : option string) (r : Row) : Row :=
  mkRow (col_id r)
        (match name with Some n => n | None => col_name r end)
        (match email with Some e => e | None => col_email r end)
        (col_created_at r).

(** UPDATE users SET ... WHERE id = ?; [None] is a column not set. *)
Definition update (name email : option string) (i : Z) : M unit :=
  bind_int i ;;
  logged (UPDATE_user name email i) ;;
  fun st =>
    let clash := match email with
                 | Some e => existsb (id_eqb i) (users st)
                             && email_taken_by_other e i (users st)
                 | None => false
                 end in
    if clash then (Raise unique_failed, st)
    else
      (Return tt,
       set_users (map (fun r => if id_eqb i r then assign name email r else r)
                      (users st)) st).

(** DELETE FROM users WHERE id = ? *)
Definition delete (i : Z) : M unit :=
  bind_int i ;;
  logged (DELETE_user i) ;;
  fun st =>
    (Return tt, set_users (filter (fun r => negb (id_eqb i r)) (users st)) st).

End Sqlite.

(** ** The answers of the manager *)

Inductive payload : Type :=
| OneUser (user : Row)
| ManyUsers (users : list Row).

Record page_info : Type := mkPage {
  pg_total : Z;
  pg_limit : value;
  pg_offset : value
}.

(** The dict every operation returns on success. *)
Record response : Type := mkResponse {
  success : bool;
  data : payload;
  message : option string;
  pagination : option page_info
}.

(** ** [DatabaseManager] *)

Definition get_connection : M unit := Sqlite.connect.

(** [dict(cursor.fetchone())]: [dict(None)] is a [TypeError]. *)
Definition dict_of (row : option Row) : M Row :=
  match row with
  | Some r => ret r
  | None => raise (TypeError "'NoneType' object is not iterable")
  end.

(** [except sqlite3.IntegrityError: raise ValueError("Email already exists")]
    followed by [except sqlite3.Error: raise]; an exception that is not an
    [sqlite3.Error] is not caught and goes on as it is. *)
Definition except_integrity {A} (e : exn) : M A :=
  match e with
  | IntegrityError _ => raise (ValueError "Email already exists")
  | _ => raise e
  end.

(** [except sqlite3.Error: raise] alone. *)
Definition except_reraise {A} (e : exn) : M A := raise e.

Definition not_found_msg (user_id : Z) : string :=
  "User with ID " ++ PyStr.str_of_int user_id ++ " not found".

Definition create_user (now : string) (name email : value) : M response :=
  if negb (truthy name) || negb (isinstance_str name)
     || (PyStr.len (PyStr.strip (as_str name)) =? 0)
  then raise (ValueError "Name must be a non-empty string")
  else if negb (truthy email) || negb (isinstance_str email)
          || negb (PyStr.contains "@" (as_str email))
  then raise (ValueError "Email must be a valid email address")
  else
    try_except
      (get_connection ;;
       user_id <- Sqlite.insert now (PyStr.strip (as_str name))
                                    (PyStr.strip (as_str email)) ;;
       Sqlite.commit ;;
       row <- Sqlite.select_by_id user_id ;;
       user <- dict_of row ;;
       Sqlite.close ;;
       ret (mkResponse true (OneUser user)
                       (Some "User created successfully") None))
      except_integrity.

Definition read_user (user_id : value) : M response :=
  if negb (isinstance_int user_id) || (as_int user_id <=? 0)
  then raise (ValueError "User ID must be a positive integer")
  else
    try_except
      (get_connection ;;
       user <- Sqlite.select_by_id (as_int user_id) ;;
       Sqlite.close ;;
       match user with
       | None => raise (ValueError (not_found_msg (as_int user_id)))
       | Some r => ret (mkResponse true (OneUser r) None None)
       end)
      except_reraise.

Definition read_all_users (limit offset : value) : M response :=
  let limit :=
    if negb (isinstance_int limit) || (as_int limit <=? 0)
       || (as_int limit >? 1000)
    then VInt 100 else limit in
  let offset :=
    if negb (isinstance_int offset) || (as_int offset <? 0)
    then VInt 0 else offset in
  try_except
    (get_connection ;;
     users <- Sqlite.select_page (as_int limit) (as_int offset) ;;
     total <- Sqlite.select_count ;;
     Sqlite.close ;;
     ret (mkResponse true (ManyUsers users) None
                     (Some (mkPage total limit offset))))
    except_reraise.

Definition update_user (user_id name email : value) : M response :=
  if negb (isinstance_int user_id) || (as_int user_id <=? 0)
  then raise (ValueError "User ID must be a positive integer")
  else if negb (truthy name) && negb (truthy email)
  then raise (ValueError "At least one field (name or email) must be provided")
  else
    try_except
      (get_connection ;;
       found <- Sqlite.select_by_id (as_int user_id) ;;
       match found with
       | None => raise (ValueError (not_found_msg (as_int user_id)))
       | Some _ => ret tt
       end ;;
       set_name <-
         (if truthy name then
            if negb (isinstance_str name)
               || (PyStr.len (PyStr.strip (as_str name)) =? 0)
            then raise (ValueError "Name must be a non-empty string")
            else ret (Some (PyStr.strip (as_str name)))
          else ret None) ;;
       set_email <-
         (if truthy email then
            if negb (isinstance_str email)
               || negb (PyStr.contains "@" (as_str email))
            then raise (ValueError "Email must be a valid email address")
            else ret (Some (PyStr.strip (as_str email)))
          else ret None) ;;
       Sqlite.update set_name set_email (as_int user_id) ;;
       Sqlite.commit ;;
       row <- Sqlite.select_by_id (as_int user_id) ;;
       user <- dict_of row ;;
       Sqlite.close ;;
       ret (mkResponse true (OneUser user)
                       (Some "User updated successfully") None))
      except_integrity.

Definition delete_user (user_id : value) : M response :=
  if negb (isinstance_int user_id) || (as_int user_id <=? 0)
  then raise (ValueError "User ID must be a positive integer")
  else
    try_except
      (get_connection ;;
       user <- Sqlite.select_by_id (as_int user_id) ;;
       match user with
       | None => raise (ValueError (not_found_msg (as_int user_id)))
       | Some r =>
           Sqlite.delete (as_int user_id) ;;
           Sqlite.commit ;;
           Sqlite.close ;;
           ret (mkResponse true (OneUser r)
                  (Some ("User " ++ PyStr.str_of_int (as_int user_id)
                                 ++ " deleted successfully")) None)
       end)
      except_reraise.

(** ** The error kinds of the specification, as the exceptions of the code *)

Definition DuplicateError : exn := ValueError "Email already exists".

Definition NotFoundError (user_id : Z) : exn :=
  ValueError (not_found_msg user_id).

Definition validation_messages : list string :=
  [ "Name must be a non-empty string";
    "Email must be a valid email address";
    "User ID must be a positive integer";
    "At least one field (name or email) must be provided" ].

Definition is_ValidationError (e : exn) : bool :=
  match e with
  | ValueError m => existsb (String.eqb m) validation_messages
  | _ => false
  end.

(** ** One call of the store, and the states the calls can reach *)

Inductive call : Type :=
| Create (now : string) (name email : value)
| Get (user_id : value)
| ListAll (limit offset : value)
| Update (user_id name email : value)
| Delete (user_id : value).

Definition exec (c : call) : M response :=
  match c with
  | Create now name email => create_user now name email
  | Get user_id => read_user user_id
  | ListAll limit offset => read_all_users limit offset
  | Update user_id name email => update_user user_id name email
  | Delete user_id => delete_user user_id
  end.

Inductive reachable : db -> Prop :=
| reach_empty : reachable empty_db
| reach_exec c st : reachable st -> reachable (snd (exec c st)).

(** ** Well-formed stores

    What the schema and the manager guarantee of the table: the key is
    positive, unique and below the sequence counter; [email] is unique;
    name and email are stored trimmed, the name non-empty and the email with
    an [@]; the timestamp is set. *)

Definition row_ok (r : Row) : Prop :=
  PyStr.strip (col_name r) = col_name r /\ col_name r <> ""
  /\ PyStr.strip (col_email r) = col_email r
  /\ PyStr.contains "@" (col_email r) = true
  /\ col_created_at r <> None.

Record wf (st : db) : Prop := mkWf {
  wf_seq : 0 <= seq st <= Sqlite.max_rowid;
  wf_count : Z.of_nat (List.length (users st)) <= seq st;
  wf_ids : Forall (fun r => 0 < col_id r <= seq st) (users st);
  wf_key : NoDup (map col_id (users st));
  wf_unique : NoDup (map col_email (users st));
  wf_rows : Forall row_ok (users st)
}.

(** The input rules of [create_user], on strings. *)
Definition valid_name (s : string) : Prop := PyStr.strip s <> "".
Definition valid_email (s : string) : Prop := PyStr.contains "@" s = true.


(** The answer of a successful [read_user]. *)
Definition found (r : Row) : outcome response :=
  Return (mkResponse true (OneUser r) None None).

(** The clamp policy in the words of the specification: a limit outside
    (0, 1000] becomes 100, a negative offset becomes 0. *)
Definition clamp_limit (limit : value) : Z :=
  match limit with
  | VInt l => if (0 <? l) && (l <=? 1000) then l else 100
  | _ => 100
  end.

Definition clamp_offset (offset : value) : Z :=
  match offset with
  | VInt o => if o <? 0 then 0 else o
  | _ => 0
  end.

(** A sequence of calls, one after the other. *)
Definition run_calls (cs : list call) (st : db) : db :=
  fold_left (fun s c => snd (exec c s)) cs st.

(** An id that was given out and whose row is gone. *)
Definition retired (i : Z) (st : db) : Prop :=
  i <= seq st /\ forall r, In r (users st) -> col_id r <> i.

(** The durable part of the state: the table and its sequence counter. *)
Definition same_store (st st' : db) : Prop :=
  users st' = users st /\ seq st' = seq st.

(** ** The tool functions around the manager

    Each tool calls the method of the same name and serialises the dict it
    returns; a [ValueError] or an [sqlite3.Error] becomes the failure dict
    with [str(e)], any other exception goes through.  [json.dumps] belongs
    to the Python library and is a parameter here. *)

Inductive envelope : Type :=
| Answer (result : response)     (* the dict of the manager *)
| Failure (error : string).      (* {"success": False, "error": str(e)} *)

(** [str(e)] *)
Definition str_of_exn (e : exn) : string :=
  match e with
  | ValueError m => m
  | TypeError m => m
  | OverflowError m => m
  | IntegrityError m => m
  | OperationalError m => m
  end.

Module Tool.
Section WithDumps.

Variable dumps : envelope -> string.   (* json.dumps(_, indent=2) *)

(** [try: result = m; return dumps(result)]
    [except (ValueError, sqlite3.Error) as e: return dumps(failure)] *)
Definition guarded (m : M response) : M string :=
  try_except
    (result <- m ;; ret (dumps (Answer result)))
    (fun e => match e with
              | ValueError _ | IntegrityError _ | OperationalError _ =>
                  ret (dumps (Failure (str_of_exn e)))
              | TypeError _ | OverflowError _ => raise e
              end).

Definition create_user (now : string) (name email : value) : M string :=
  guarded (create_user now name email).
Definition read_user (user_id : value) : M string :=
  guarded (read_user user_id).
Definition read_all_users (limit offset : value) : M string :=
  guarded (read_all_users limit offset).
Definition update_user (user_id name email : value) : M string :=
  guarded (update_user user_id name email).
Definition delete_user (user_id : value) : M string :=
  guarded (delete_user user_id).


End WithDumps.
End Tool.

(** The rows in the answer of [read_all_users], the record in the answer of
    the other operations. *)
Definition listed (out : outcome response * db) : list Row :=
  match fst out with
  | Return r => match data r with ManyUsers rs => rs | OneUser _ => [] end
  | Raise _ => []
  end.

Definition record_of (out : outcome response) : option Row :=
  match out with
  | Return r => match data r with OneUser u => Some u | ManyUsers _ => None end
  | Raise _ => None
  end.

Definition is_select (q : statement) : bool :=
  match q with
  | SELECT_by_id _ | SELECT_page _ _ | SELECT_count => true
  | _ => false
  end.

(** The messages a [ValueError] of the manager can carry. *)
Definition manager_message (m : string) : Prop :=
  In m validation_messages
  \/ m = "Email already exists"
  \/ exists i, m = not_found_msg i.

(** The [int] a call hands to the engine as a parameter: the id, or the
    offset of a listing. *)
Definition int_argument (c : call) : Z :=
  match c with
  | Create _ _ _ => 0
  | Get user_id => as_int user_id
  | ListAll _ offset => as_int offset
  | Update user_id _ _ => as_int user_id
  | Delete user_id => as_int user_id
  end.

(** Runs the monadic code of an operation up to the next test on the data. *)
Ltac run :=
  cbv beta iota zeta delta
    [try_except bind ret raise get_connection
     Sqlite.connect Sqlite.close Sqlite.commit Sqlite.logged Sqlite.bind_int
     Sqlite.insert Sqlite.select_by_id Sqlite.select_page Sqlite.select_count
     Sqlite.update Sqlite.delete
     except_integrity except_reraise dict_of
     set_users set_seq set_conns add_log];
  cbn [users seq conns log Nat.pred].

(** * Properties *)

(** ** Strings *)

Section Strip.
Import PyStr.

Lemma lstrip_head s :
  lstrip s = "" \/ exists c t, lstrip s = String c t /\ is_space c = false.
Proof.
  induction s as [|c s IH]; simpl; [now left|].
  destruct (is_space c) eqn:E; [exact IH|].
  right; now exists c, s.
Qed.

Lemma rstrip_idem s : rstrip (rstrip s) = rstrip s.
Proof.
  induction s as [|c s IH]; simpl; [reflexivity|].
  destruct (rstrip s) as [|d t] eqn:E.
  - destruct (is_space c) eqn:Ec; simpl; [reflexivity|now rewrite Ec].
  - change (rstrip (String c (String d t))) with
      (match rstrip (String d t) with
       | "" => if is_space c then "" else String c ""
       | u => String c u
       end).
    now rewrite IH.
Qed.

Lemma rstrip_head c t :
  is_space c = false -> exists u, rstrip (String c t) = String c u.
Proof.
  intros Hc; simpl. destruct (rstrip t); [rewrite Hc|]; eauto.
Qed.

Lemma lstrip_fixed c t : is_space c = false -> lstrip (String c t) = String c t.
Proof. intros Hc; simpl; now rewrite Hc. Qed.

Lemma strip_idem s : strip (strip s) = strip s.
Proof.
  unfold strip.
  destruct (lstrip_head s) as [E | (c & t & E & Hc)]; rewrite E.
  - reflexivity.
  - destruct (rstrip_head c t Hc) as [u Eu].
    rewrite Eu, (lstrip_fixed c u Hc), <- Eu. apply rstrip_idem.
Qed.

Lemma contains_lstrip c s :
  is_space c = false -> contains c s = true -> contains c (lstrip s) = true.
Proof.
  intros Hc; induction s as [|d s IH]; simpl; [easy|].
  intros H. destruct (is_space d) eqn:Ed.
  - apply IH. apply orb_true_iff in H as [H|H]; [|exact H].
    apply Ascii.eqb_eq in H; congruence.
  - exact H.
Qed.

Lemma contains_rstrip c s :
  is_space c = false -> contains c s = true -> contains c (rstrip s) = true.
Proof.
  intros Hc; induction s as [|d s IH]; simpl; [easy|].
  intros H. apply orb_true_iff in H as [H|H].
  - apply Ascii.eqb_eq in H; subst d.
    destruct (rstrip s); [rewrite Hc|]; simpl; now rewrite Ascii.eqb_refl.
  - specialize (IH H). destruct (rstrip s); [discriminate|].
    change (Ascii.eqb c d || contains c (String a s0) = true).
    rewrite IH. apply orb_true_r.
Qed.

Lemma contains_strip c s :
  is_space c = false -> contains c s = true -> contains c (strip s) = true.
Proof.
  intros Hc H. apply contains_rstrip, contains_lstrip; assumption.
Qed.

Lemma len_zero s : (len s =? 0) = false <-> s <> "".
Proof.
  unfold len; destruct s as [|c s]; simpl String.length.
  - split; [discriminate | congruence].
  - split; [discriminate | intros _; apply Z.eqb_neq; lia].
Qed.

Lemma contains_nonempty c s : contains c s = true -> s <> "".
Proof. destruct s; simpl; easy. Qed.

End Strip.

(** ** The engine *)

Section Engine.
Import Sqlite.

Lemma max_id_nonneg rs : 0 <= max_id rs.
Proof. induction rs; simpl; lia. Qed.

Lemma max_id_ge rs r : In r rs -> col_id r <= max_id rs.
Proof.
  induction rs as [|x rs IH]; simpl; [easy|].
  intros [->|H]; [lia|]. specialize (IH H). lia.
Qed.

Lemma next_rowid_pos st : 0 < next_rowid st.
Proof. unfold next_rowid. pose proof (max_id_nonneg (users st)). lia. Qed.

Lemma next_rowid_fresh st r : In r (users st) -> col_id r < next_rowid st.
Proof. intros H. apply max_id_ge in H. unfold next_rowid. lia. Qed.

Lemma find_none_app i rs x :
  (forall r, In r rs -> col_id r <> i) -> col_id x = i ->
  find (id_eqb i) (rs ++ [x]) = Some x.
Proof.
  intros Hrs Hx. induction rs as [|y rs IH]; simpl.
  - unfold id_eqb. now rewrite Hx, Z.eqb_refl.
  - unfold id_eqb at 1. destruct (col_id y =? i) eqn:E.
    + apply Z.eqb_eq in E. exfalso. apply (Hrs y); simpl; auto.
    + apply IH. intros r Hr. apply Hrs. now right.
Qed.

Lemma find_new_row st x :
  col_id x = next_rowid st ->
  find (id_eqb (next_rowid st)) (users st ++ [x]) = Some x.
Proof.
  intros Hx. apply find_none_app; [|exact Hx].
  intros r Hr. apply next_rowid_fresh in Hr. lia.
Qed.

Lemma find_id_some i rs r :
  find (id_eqb i) rs = Some r -> In r rs /\ col_id r = i.
Proof.
  intros H. apply find_some in H as [H1 H2]. split; [exact H1|].
  now apply Z.eqb_eq in H2.
Qed.

Lemma find_id_none i rs :
  find (id_eqb i) rs = None <-> (forall r, In r rs -> col_id r <> i).
Proof.
  split.
  - intros H r Hr E. apply (find_none _ _ H) in Hr.
    unfold id_eqb in Hr. apply Z.eqb_neq in Hr. contradiction.
  - intros H. induction rs as [|x rs IH]; simpl; [reflexivity|].
    unfold id_eqb at 1. destruct (col_id x =? i) eqn:E.
    + apply Z.eqb_eq in E. exfalso. apply (H x); simpl; auto.
    + apply IH. intros r Hr. apply H. now right.
Qed.

(** With a unique key, the lookup by id finds the row that is there. *)
Lemma find_id_unique rs r :
  NoDup (map col_id rs) -> In r rs -> find (id_eqb (col_id r)) rs = Some r.
Proof.
  induction rs as [|x rs IH]; simpl; [easy|].
  intros Hnd Hin. inversion Hnd as [|? ? Hx Hnd']; subst.
  unfold id_eqb at 1. destruct Hin as [->|Hin].
  - now rewrite Z.eqb_refl.
  - destruct (col_id x =? col_id r) eqn:E; [|now apply IH].
    apply Z.eqb_eq in E. exfalso. apply Hx. rewrite E. now apply in_map.
Qed.

Lemma email_taken_iff e rs :
  email_taken e rs = true <-> exists r, In r rs /\ col_email r = e.
Proof.
  unfold email_taken. rewrite existsb_exists. split.
  - intros (r & Hr & E). apply String.eqb_eq in E. eauto.
  - intros (r & Hr & E). exists r. split; [exact Hr|]. now apply String.eqb_eq.
Qed.

Lemma email_taken_false e rs :
  email_taken e rs = false <-> (forall r, In r rs -> col_email r <> e).
Proof.
  split.
  - intros H r Hr E.
    assert (email_taken e rs = true) by (apply email_taken_iff; eauto).
    congruence.
  - intros H. destruct (email_taken e rs) eqn:E; [|reflexivity].
    apply email_taken_iff in E as (r & Hr & E'). now apply H in Hr.
Qed.

Lemma email_taken_by_other_iff e i rs :
  email_taken_by_other e i rs = true
  <-> exists r, In r rs /\ col_email r = e /\ col_id r <> i.
Proof.
  unfold email_taken_by_other. rewrite existsb_exists. split.
  - intros (r & Hr & E). apply andb_true_iff in E as [E1 E2].
    apply String.eqb_eq in E1. apply negb_true_iff, Z.eqb_neq in E2. eauto.
  - intros (r & Hr & E1 & E2). exists r. split; [exact Hr|].
    apply andb_true_iff. split; [now apply String.eqb_eq|].
    now apply negb_true_iff, Z.eqb_neq.
Qed.

Lemma find_filter_deleted i rs :
  find (id_eqb i) (filter (fun r => negb (id_eqb i r)) rs) = None.
Proof.
  apply find_id_none. intros r Hr. apply filter_In in Hr as [_ Hr].
  apply negb_true_iff in Hr. unfold id_eqb in Hr. now apply Z.eqb_neq.
Qed.

Lemma id_eqb_true i r : id_eqb i r = true <-> col_id r = i.
Proof. apply Z.eqb_eq. Qed.

Lemma find_filter_other i j rs :
  i <> j ->
  find (id_eqb j) (filter (fun r => negb (id_eqb i r)) rs) = find (id_eqb j) rs.
Proof.
  intros Hij. induction rs as [|x rs IH]; [reflexivity|].
  cbn [find filter].
  destruct (id_eqb i x) eqn:Ei, (id_eqb j x) eqn:Ej; cbn [negb find];
    rewrite ?Ej; auto.
  apply id_eqb_true in Ei, Ej. congruence.
Qed.

Lemma assign_id n e r : col_id (assign n e r) = col_id r.
Proof. reflexivity. Qed.

Lemma find_map_assigned n e i rs :
  find (id_eqb i) (map (fun r => if id_eqb i r then assign n e r else r) rs)
  = option_map (assign n e) (find (id_eqb i) rs).
Proof.
  induction rs as [|x rs IH]; [reflexivity|].
  cbn [find map].
  destruct (id_eqb i x) eqn:Ei.
  - change (id_eqb i (assign n e x)) with (id_eqb i x). now rewrite Ei.
  - now rewrite Ei.
Qed.

Lemma find_map_other n e i j rs :
  i <> j ->
  find (id_eqb j) (map (fun r => if id_eqb i r then assign n e r else r) rs)
  = find (id_eqb j) rs.
Proof.
  intros Hij. induction rs as [|x rs IH]; [reflexivity|].
  cbn [find map].
  destruct (id_eqb i x) eqn:Ei.
  - change (id_eqb j (assign n e x)) with (id_eqb j x).
    destruct (id_eqb j x) eqn:Ej; [|exact IH].
    apply id_eqb_true in Ei, Ej. congruence.
  - destruct (id_eqb j x); [reflexivity|exact IH].
Qed.

End Engine.

(** ** The input checks *)

Lemma name_check_ok n :
  negb (truthy (VStr n)) || negb (isinstance_str (VStr n))
  || (PyStr.len (PyStr.strip (as_str (VStr n))) =? 0) = false
  <-> valid_name n.
Proof.
  unfold valid_name. cbn [as_str isinstance_str negb]. rewrite orb_false_r.
  destruct n as [|c n].
  - cbn. split; [discriminate | congruence].
  - cbn [truthy String.eqb negb orb]. apply len_zero.
Qed.

Lemma email_check_ok e :
  negb (truthy (VStr e)) || negb (isinstance_str (VStr e))
  || negb (PyStr.contains "@" (as_str (VStr e))) = false
  <-> valid_email e.
Proof.
  unfold valid_email. cbn [as_str isinstance_str negb]. rewrite orb_false_r.
  destruct e as [|c e].
  - cbn. split; discriminate.
  - cbn [truthy String.eqb negb orb]. apply negb_false_iff.
Qed.

Lemma at_not_space : PyStr.is_space "@" = false.
Proof. reflexivity. Qed.

(** ** What each operation computes *)

Section Runs.
Import Sqlite.

Lemma fits_int64_pos i : 0 < i -> i <= max_rowid -> fits_int64 i = true.
Proof.
  intros H1 H2. unfold fits_int64, min_int64.
  apply andb_true_iff. split; apply Z.leb_le; lia.
Qed.

Lemma fits_int64_nonneg i : 0 <= i -> i <= max_rowid -> fits_int64 i = true.
Proof.
  intros H1 H2. unfold fits_int64, min_int64.
  apply andb_true_iff. split; apply Z.leb_le; lia.
Qed.

Lemma fits_int64_above i : max_rowid < i -> fits_int64 i = false.
Proof.
  intros H. unfold fits_int64. apply andb_false_iff. right.
  apply Z.leb_gt. exact H.
Qed.

Lemma exhausted_false st : exhausted st = false <-> next_rowid st <= max_rowid.
Proof. unfold exhausted, next_rowid. rewrite Z.leb_gt. lia. Qed.

Lemma exhausted_store us sq c l st :
  us = users st -> sq = seq st -> exhausted (mkDb us sq c l) = exhausted st.
Proof. now intros -> ->. Qed.

(** [create_user] on input that passes the two checks. *)
Lemma create_user_run now n e st :
  valid_name n -> valid_email e ->
  create_user now (VStr n) (VStr e) st =
  let n' := PyStr.strip n in
  let e' := PyStr.strip e in
  if exhausted st
  then (Raise full,
        mkDb (users st) (seq st) (S (conns st))
             (log st ++ [INSERT_user n' e']))
  else if email_taken e' (users st)
  then (Raise DuplicateError,
        mkDb (users st) (seq st) (S (conns st))
             (log st ++ [INSERT_user n' e']))
  else
    let r := mkRow (next_rowid st) n' e' (Some now) in
    (Return (mkResponse true (OneUser r)
                        (Some "User created successfully") None),
     mkDb (users st ++ [r]) (next_rowid st) (conns st)
          (log st ++ [INSERT_user n' e'; SELECT_by_id (next_rowid st)])).
Proof.
  intros Hn He. unfold create_user.
  rewrite (proj2 (name_check_ok n) Hn), (proj2 (email_check_ok e) He).
  cbn [as_str]. run.
  rewrite (exhausted_store _ _ _ _ st eq_refl eq_refl).
  destruct (exhausted st) eqn:Hfull; [reflexivity|].
  destruct (email_taken (PyStr.strip e) (users st)); [reflexivity|].
  run. unfold next_rowid; cbn [users seq]; fold (next_rowid st).
  rewrite fits_int64_pos
    by (apply next_rowid_pos || now apply exhausted_false).
  run. rewrite find_new_row by reflexivity.
  run. now rewrite <- app_assoc.
Qed.

Lemma bad_id_check i : 0 < i ->
  negb (isinstance_int (VInt i)) || (as_int (VInt i) <=? 0) = false.
Proof. intros H. cbn. apply Z.leb_gt. exact H. Qed.

Lemma read_user_run i st :
  0 < i -> i <= max_rowid ->
  read_user (VInt i) st =
  (match find (id_eqb i) (users st) with
   | Some r => found r
   | None => Raise (NotFoundError i)
   end,
   mkDb (users st) (seq st) (conns st) (log st ++ [SELECT_by_id i])).
Proof.
  intros Hi Hm. unfold read_user. rewrite (bad_id_check i Hi). cbn [as_int].
  run. rewrite (fits_int64_pos i Hi Hm). run.
  destruct (find (id_eqb i) (users st)); reflexivity.
Qed.

(** An id that does not fit in 64 bits is not bound: the call raises with
    its connection open and no statement run. *)
Lemma read_user_overflow i st :
  max_rowid < i ->
  read_user (VInt i) st
  = (Raise too_large, mkDb (users st) (seq st) (S (conns st)) (log st)).
Proof.
  intros Hm. assert (Hi : 0 < i) by (unfold max_rowid in Hm; lia).
  unfold read_user. rewrite (bad_id_check i Hi). cbn [as_int].
  run. rewrite (fits_int64_above i Hm). reflexivity.
Qed.

Lemma delete_user_run i st :
  0 < i -> i <= max_rowid ->
  delete_user (VInt i) st =
  match find (id_eqb i) (users st) with
  | None => (Raise (NotFoundError i),
             mkDb (users st) (seq st) (S (conns st))
                  (log st ++ [SELECT_by_id i]))
  | Some r =>
      (Return (mkResponse true (OneUser r)
                 (Some ("User " ++ PyStr.str_of_int i
                                ++ " deleted successfully")) None),
       mkDb (filter (fun x => negb (id_eqb i x)) (users st)) (seq st)
            (conns st) (log st ++ [SELECT_by_id i; DELETE_user i]))
  end.
Proof.
  intros Hi Hm. unfold delete_user. rewrite (bad_id_check i Hi).
  cbn [as_int]. run. rewrite (fits_int64_pos i Hi Hm). run.
  destruct (find (id_eqb i) (users st)); run; [|reflexivity].
  now rewrite <- app_assoc.
Qed.

Lemma delete_user_overflow i st :
  max_rowid < i ->
  delete_user (VInt i) st
  = (Raise too_large, mkDb (users st) (seq st) (S (conns st)) (log st)).
Proof.
  intros Hm. assert (Hi : 0 < i) by (unfold max_rowid in Hm; lia).
  unfold delete_user. rewrite (bad_id_check i Hi). cbn [as_int].
  run. rewrite (fits_int64_above i Hm). reflexivity.
Qed.

Lemma read_all_users_run l o st :
  0 < l <= 1000 -> 0 <= o -> o <= max_rowid ->
  read_all_users (VInt l) (VInt o) st =
  (Return (mkResponse true
             (ManyUsers (window l o (order_by_id_desc (users st)))) None
             (Some (mkPage (Z.of_nat (List.length (users st)))
                           (VInt l) (VInt o)))),
   mkDb (users st) (seq st) (conns st)
        (log st ++ [SELECT_page l o; SELECT_count])).
Proof.
  intros Hl Ho Hm. unfold read_all_users. cbn [isinstance_int as_int negb orb].
  replace (l <=? 0) with false by (symmetry; apply Z.leb_gt; lia).
  replace (l >? 1000) with false
    by (symmetry; rewrite Z.gtb_ltb; apply Z.ltb_ge; lia).
  replace (o <? 0) with false by (symmetry; apply Z.ltb_ge; lia).
  cbn [orb as_int]. run.
  rewrite (fits_int64_pos l) by (unfold max_rowid; lia).
  rewrite (fits_int64_nonneg o Ho Hm). run. now rewrite <- app_assoc.
Qed.

Lemma read_all_users_overflow l o st :
  0 < l <= 1000 -> max_rowid < o ->
  read_all_users (VInt l) (VInt o) st
  = (Raise too_large, mkDb (users st) (seq st) (S (conns st)) (log st)).
Proof.
  intros Hl Hm. assert (Ho : 0 < o) by (unfold max_rowid in Hm; lia).
  unfold read_all_users. cbn [isinstance_int as_int negb orb].
  replace (l <=? 0) with false by (symmetry; apply Z.leb_gt; lia).
  replace (l >? 1000) with false
    by (symmetry; rewrite Z.gtb_ltb; apply Z.ltb_ge; lia).
  replace (o <? 0) with false by (symmetry; apply Z.ltb_ge; lia).
  cbn [orb as_int]. run.
  rewrite (fits_int64_pos l) by (unfold max_rowid; lia).
  rewrite (fits_int64_above o Hm). reflexivity.
Qed.

Lemma find_existsb i rs r :
  find (id_eqb i) rs = Some r -> existsb (id_eqb i) rs = true.
Proof.
  intros H. apply find_some in H as [H1 H2]. apply existsb_exists. eauto.
Qed.

(** [update_user] past its first two checks. *)
Lemma update_user_run i name email st :
  0 < i -> i <= max_rowid -> truthy name || truthy email = true ->
  update_user (VInt i) name email st =
  let st1 := mkDb (users st) (seq st) (S (conns st))
                  (log st ++ [SELECT_by_id i]) in
  match find (id_eqb i) (users st) with
  | None => (Raise (NotFoundError i), st1)
  | Some old =>
      if truthy name
         && (negb (isinstance_str name)
             || (PyStr.len (PyStr.strip (as_str name)) =? 0))
      then (Raise (ValueError "Name must be a non-empty string"), st1)
      else if truthy email
              && (negb (isinstance_str email)
                  || negb (PyStr.contains "@" (as_str email)))
      then (Raise (ValueError "Email must be a valid email address"), st1)
      else
        let sn := if truthy name then Some (PyStr.strip (as_str name))
                  else None in
        let se := if truthy email then Some (PyStr.strip (as_str email))
                  else None in
        if match se with
           | Some e => email_taken_by_other e i (users st)
           | None => false
           end
        then (Raise DuplicateError,
              mkDb (users st) (seq st) (S (conns st))
                   (log st ++ [SELECT_by_id i; UPDATE_user sn se i]))
        else
          (Return (mkResponse true (OneUser (assign sn se old))
                              (Some "User updated successfully") None),
           mkDb (map (fun r => if id_eqb i r then assign sn se r else r)
                     (users st))
                (seq st) (conns st)
                (log st ++ [SELECT_by_id i; UPDATE_user sn se i;
                            SELECT_by_id i]))
  end.
Proof.
  intros Hi Hm Hsup. unfold update_user. rewrite (bad_id_check i Hi).
  replace (negb (truthy name) && negb (truthy email)) with false
    by (destruct (truthy name), (truthy email); easy).
  cbn [as_int]. run. rewrite !(fits_int64_pos i Hi Hm). run.
  destruct (find (id_eqb i) (users st)) as [old|] eqn:Hfind; [|reflexivity].
  run.
  destruct (truthy name) eqn:Tn; cbn [andb].
  - destruct (negb (isinstance_str name)
              || (PyStr.len (PyStr.strip (as_str name)) =? 0)); [reflexivity|].
    run. destruct (truthy email) eqn:Te; cbn [andb].
    + destruct (negb (isinstance_str email)
                || negb (PyStr.contains "@" (as_str email))); [reflexivity|].
      run. rewrite (find_existsb _ _ _ Hfind). cbn [andb].
      destruct (email_taken_by_other _ i (users st)).
      * now rewrite <- app_assoc.
      * run. rewrite find_map_assigned, Hfind. cbn [option_map]. run.
        now rewrite <- !app_assoc.
    + run. rewrite find_map_assigned, Hfind. cbn [option_map]. run.
      now rewrite <- !app_assoc.
  - cbn [orb] in Hsup. rewrite Hsup. cbn [andb].
    run.
    destruct (negb (isinstance_str email)
              || negb (PyStr.contains "@" (as_str email))); [reflexivity|].
    run. rewrite (find_existsb _ _ _ Hfind). cbn [andb].
    destruct (email_taken_by_other _ i (users st)).
    + now rewrite <- app_assoc.
    + run. rewrite find_map_assigned, Hfind. cbn [option_map]. run.
      now rewrite <- !app_assoc.
Qed.

Lemma update_user_overflow i name email st :
  max_rowid < i -> truthy name || truthy email = true ->
  update_user (VInt i) name email st
  = (Raise too_large, mkDb (users st) (seq st) (S (conns st)) (log st)).
Proof.
  intros Hm Hsup. assert (Hi : 0 < i) by (unfold max_rowid in Hm; lia).
  unfold update_user. rewrite (bad_id_check i Hi).
  replace (negb (truthy name) && negb (truthy email)) with false
    by (destruct (truthy name), (truthy email); easy).
  cbn [as_int]. run. rewrite (fits_int64_above i Hm). reflexivity.
Qed.

(** *** Arguments of any type *)

Lemma id_cases v :
  (negb (isinstance_int v) || (as_int v <=? 0) = true)
  \/ exists i, v = VInt i /\ 0 < i.
Proof.
  destruct v as [|z|s]; cbn; auto.
  destruct (z <=? 0) eqn:E; [now left|].
  right. exists z. split; [reflexivity|]. now apply Z.leb_gt.
Qed.

(** An id that passed the guard is bound, or is too large to be. *)
Lemma id_cases64 v :
  (negb (isinstance_int v) || (as_int v <=? 0) = true)
  \/ (exists i, v = VInt i /\ 0 < i /\ i <= max_rowid)
  \/ (exists i, v = VInt i /\ max_rowid < i).
Proof.
  destruct (id_cases v) as [Hb | (i & -> & Hi)]; [now left|].
  right. destruct (Z_le_gt_dec i max_rowid); [left|right]; exists i; auto.
  split; [reflexivity|lia].
Qed.

Lemma name_cases v :
  (negb (truthy v) || negb (isinstance_str v)
   || (PyStr.len (PyStr.strip (as_str v)) =? 0) = true)
  \/ exists n, v = VStr n /\ valid_name n.
Proof.
  destruct v as [|z|n].
  - now left.
  - left. cbn [isinstance_str negb]. now rewrite orb_true_r.
  - destruct (negb (truthy (VStr n)) || negb (isinstance_str (VStr n))
              || (PyStr.len (PyStr.strip (as_str (VStr n))) =? 0)) eqn:E.
    + now left.
    + right. exists n. split; [reflexivity|]. now apply name_check_ok.
Qed.

Lemma email_cases v :
  (negb (truthy v) || negb (isinstance_str v)
   || negb (PyStr.contains "@" (as_str v)) = true)
  \/ exists e, v = VStr e /\ valid_email e.
Proof.
  destruct v as [|z|e].
  - now left.
  - left. cbn [isinstance_str negb]. now rewrite orb_true_r.
  - destruct (negb (truthy (VStr e)) || negb (isinstance_str (VStr e))
              || negb (PyStr.contains "@" (as_str (VStr e)))) eqn:E.
    + now left.
    + right. exists e. split; [reflexivity|]. now apply email_check_ok.
Qed.

Lemma create_user_bad_name now name email st :
  negb (truthy name) || negb (isinstance_str name)
  || (PyStr.len (PyStr.strip (as_str name)) =? 0) = true ->
  create_user now name email st =
  (Raise (ValueError "Name must be a non-empty string"), st).
Proof. intros H. unfold create_user. now rewrite H. Qed.

Lemma create_user_bad_email now n email st :
  valid_name n ->
  negb (truthy email) || negb (isinstance_str email)
  || negb (PyStr.contains "@" (as_str email)) = true ->
  create_user now (VStr n) email st =
  (Raise (ValueError "Email must be a valid email address"), st).
Proof.
  intros Hn H. unfold create_user.
  now rewrite (proj2 (name_check_ok n) Hn), H.
Qed.

Lemma read_user_bad_id v st :
  negb (isinstance_int v) || (as_int v <=? 0) = true ->
  read_user v st
  = (Raise (ValueError "User ID must be a positive integer"), st).
Proof. intros H. unfold read_user. now rewrite H. Qed.

Lemma update_user_bad_id v name email st :
  negb (isinstance_int v) || (as_int v <=? 0) = true ->
  update_user v name email st =
  (Raise (ValueError "User ID must be a positive integer"), st).
Proof. intros H. unfold update_user. now rewrite H. Qed.

Lemma update_user_no_field i name email st :
  0 < i -> truthy name = false -> truthy email = false ->
  update_user (VInt i) name email st =
  (Raise (ValueError "At least one field (name or email) must be provided"),
   st).
Proof.
  intros Hi Hn He. unfold update_user.
  now rewrite (bad_id_check i Hi), Hn, He.
Qed.

Lemma delete_user_bad_id v st :
  negb (isinstance_int v) || (as_int v <=? 0) = true ->
  delete_user v st =
  (Raise (ValueError "User ID must be a positive integer"), st).
Proof. intros H. unfold delete_user. now rewrite H. Qed.

Lemma clamp_limit_range v : 0 < clamp_limit v <= 1000.
Proof.
  destruct v as [|l|s]; cbn; try lia.
  destruct ((0 <? l) && (l <=? 1000)) eqn:E; [|lia].
  apply andb_true_iff in E as [E1 E2].
  apply Z.ltb_lt in E1. apply Z.leb_le in E2. lia.
Qed.

Lemma clamp_offset_range v : 0 <= clamp_offset v.
Proof.
  destruct v as [|o|s]; cbn; try lia.
  destruct (o <? 0) eqn:E; [lia|]. now apply Z.ltb_ge.
Qed.

(** The source rebinds [limit] and [offset]; the values it goes on with are
    the clamped ones of the specification. *)
Lemma read_all_users_clamp limit offset st :
  read_all_users limit offset st =
  read_all_users (VInt (clamp_limit limit)) (VInt (clamp_offset offset)) st.
Proof.
  assert (Hl : forall v,
    (if negb (isinstance_int v) || (as_int v <=? 0) || (as_int v >? 1000)
     then VInt 100 else v) = VInt (clamp_limit v)).
  { intros [|l|s]; cbn; try reflexivity.
    rewrite Z.gtb_ltb.
    destruct (l <=? 0) eqn:E1, (0 <? l) eqn:E2, (1000 <? l) eqn:E3,
             (l <=? 1000) eqn:E4; cbn; try reflexivity;
      rewrite ?Z.leb_le, ?Z.leb_gt, ?Z.ltb_lt, ?Z.ltb_ge in *; lia. }
  assert (Ho : forall v,
    (if negb (isinstance_int v) || (as_int v <? 0) then VInt 0 else v)
    = VInt (clamp_offset v)).
  { intros [|o|s]; cbn; try reflexivity. now destruct (o <? 0). }
  unfold read_all_users.
  rewrite !Hl, !Ho.
  assert (Hl' : clamp_limit (VInt (clamp_limit limit)) = clamp_limit limit).
  { pose proof (clamp_limit_range limit) as R. cbn.
    replace (0 <? clamp_limit limit) with true
      by (symmetry; apply Z.ltb_lt; lia).
    replace (clamp_limit limit <=? 1000) with true
      by (symmetry; apply Z.leb_le; lia).
    reflexivity. }
  assert (Ho' : clamp_offset (VInt (clamp_offset offset))
                = clamp_offset offset).
  { pose proof (clamp_offset_range offset) as R. cbn.
    replace (clamp_offset offset <? 0) with false
      by (symmetry; apply Z.ltb_ge; lia).
    reflexivity. }
  now rewrite Hl', Ho'.
Qed.

Lemma update_user_large_id i name email st :
  max_rowid < i ->
  update_user (VInt i) name email st
  = if truthy name || truthy email
    then (Raise too_large, mkDb (users st) (seq st) (S (conns st)) (log st))
    else (Raise (ValueError
                   "At least one field (name or email) must be provided"),
          st).
Proof.
  intros Hm. destruct (truthy name || truthy email) eqn:Hsup.
  - now apply update_user_overflow.
  - apply orb_false_iff in Hsup as [Hn He].
    apply update_user_no_field; [unfold max_rowid in Hm; lia|assumption..].
Qed.

(** [read_all_users] on any arguments: it answers, or the offset is too
    large to be bound. *)
Lemma read_all_users_cases limit offset st :
  let l := clamp_limit limit in
  let o := clamp_offset offset in
  (o <= max_rowid
   /\ read_all_users limit offset st
      = (Return (mkResponse true
                   (ManyUsers (window l o (order_by_id_desc (users st))))
                   None
                   (Some (mkPage (Z.of_nat (List.length (users st)))
                                 (VInt l) (VInt o)))),
         mkDb (users st) (seq st) (conns st)
              (log st ++ [SELECT_page l o; SELECT_count])))
  \/ (max_rowid < o
      /\ read_all_users limit offset st
         = (Raise too_large,
            mkDb (users st) (seq st) (S (conns st)) (log st))).
Proof.
  cbv zeta. rewrite read_all_users_clamp.
  pose proof (clamp_limit_range limit). pose proof (clamp_offset_range offset).
  destruct (Z_le_gt_dec (clamp_offset offset) max_rowid) as [Hm|Hm].
  - left. split; [exact Hm|]. now apply read_all_users_run.
  - right. split; [lia|]. apply read_all_users_overflow; [assumption|lia].
Qed.

End Runs.

(** ** The invariant of the store *)

Section Invariant.
Import Sqlite.

Lemma wf_same_store st st' : same_store st st' -> wf st -> wf st'.
Proof.
  intros [Hu Hs] [H1 Hc H2 H3 H4 H5].
  constructor; rewrite ?Hu, ?Hs; assumption.
Qed.

Lemma wf_empty : wf empty_db.
Proof. constructor; cbn; try constructor; unfold max_rowid; lia. Qed.

Lemma NoDup_snoc {A} (l : list A) x : NoDup l -> ~ In x l -> NoDup (l ++ [x]).
Proof.
  intros Hl Hx. apply NoDup_app; [exact Hl|repeat constructor; easy|].
  intros a Ha [<-|[]]. contradiction.
Qed.

Lemma wf_insert st now n e c l :
  wf st -> valid_name n -> valid_email e ->
  exhausted st = false ->
  email_taken (PyStr.strip e) (users st) = false ->
  wf (mkDb (users st ++ [mkRow (next_rowid st) (PyStr.strip n)
                               (PyStr.strip e) (Some now)])
           (next_rowid st) c l).
Proof.
  intros [H1 Hc H2 H3 H4 H5] Hn He Hleft Hfree.
  assert (Hnext : seq st < next_rowid st) by (unfold next_rowid; lia).
  apply exhausted_false in Hleft.
  constructor; cbn [users seq].
  - lia.
  - rewrite length_app. cbn [List.length]. lia.
  - apply Forall_app. split.
    + eapply Forall_impl; [|exact H2]. cbn. intros r Hr. lia.
    + repeat constructor; cbn; lia.
  - rewrite map_app. apply NoDup_snoc; [exact H3|]. cbn.
    intros Hin. apply in_map_iff in Hin as (r & Er & Hr).
    apply next_rowid_fresh in Hr. lia.
  - rewrite map_app. apply NoDup_snoc; [exact H4|]. cbn.
    intros Hin. apply in_map_iff in Hin as (r & Er & Hr).
    apply (proj1 (email_taken_false _ _) Hfree r Hr Er).
  - apply Forall_app. split; [exact H5|]. repeat constructor; cbn.
    + apply strip_idem.
    + exact Hn.
    + apply strip_idem.
    + apply contains_strip; [reflexivity|exact He].
    + discriminate.
Qed.

Lemma NoDup_map_filter {A B} (f : A -> B) p l :
  NoDup (map f l) -> NoDup (map f (filter p l)).
Proof.
  induction l as [|x l IH]; cbn; [auto|].
  intros H. inversion H as [|? ? Hx Hl]; subst.
  destruct (p x); cbn; [|auto].
  constructor; [|auto].
  intros Hin. apply Hx. apply in_map_iff in Hin as (y & Ey & Hy).
  apply filter_In in Hy as [Hy _]. rewrite <- Ey. now apply in_map.
Qed.

Lemma Forall_filter_keep {A} (P : A -> Prop) p l :
  Forall P l -> Forall P (filter p l).
Proof.
  intros H. apply Forall_forall. intros x Hx. apply filter_In in Hx as [Hx _].
  revert x Hx. now apply Forall_forall.
Qed.

Lemma wf_delete st i c l :
  wf st ->
  wf (mkDb (filter (fun r => negb (id_eqb i r)) (users st)) (seq st) c l).
Proof.
  intros [H1 Hc H2 H3 H4 H5]. constructor; cbn [users seq].
  - exact H1.
  - pose proof (filter_length_le (fun r => negb (id_eqb i r)) (users st)).
    lia.
  - now apply Forall_filter_keep.
  - now apply NoDup_map_filter.
  - now apply NoDup_map_filter.
  - now apply Forall_filter_keep.
Qed.

Lemma map_id_assign sn se i rs :
  map col_id (map (fun r => if id_eqb i r then assign sn se r else r) rs)
  = map col_id rs.
Proof.
  rewrite map_map. apply map_ext. intros r. now destruct (id_eqb i r).
Qed.

(** Rows without the key [i] are not touched by the UPDATE. *)
Lemma map_assign_absent sn se i rs :
  (forall r, In r rs -> col_id r <> i) ->
  map (fun r => if id_eqb i r then assign sn se r else r) rs = rs.
Proof.
  intros H. induction rs as [|x rs IH]; cbn; [reflexivity|].
  destruct (id_eqb i x) eqn:E.
  - apply id_eqb_true in E. exfalso. apply (H x); cbn; auto.
  - f_equal. apply IH. intros r Hr. apply H. now right.
Qed.

Lemma unique_after_update sn e i rs :
  NoDup (map col_id rs) -> NoDup (map col_email rs) ->
  email_taken_by_other e i rs = false ->
  NoDup (map col_email
           (map (fun r => if id_eqb i r then assign sn (Some e) r else r) rs)).
Proof.
  intros Hid Hem Hfree.
  assert (Hother : forall r, In r rs -> col_email r = e -> col_id r = i).
  { intros r Hr Er. destruct (Z.eq_dec (col_id r) i) as [|Hne]; [assumption|].
    assert (email_taken_by_other e i rs = true)
      by (apply email_taken_by_other_iff; eauto).
    congruence. }
  clear Hfree. induction rs as [|x rs IH]; cbn; [constructor|].
  inversion Hid as [|? ? Hx Hid']; inversion Hem as [|? ? Hy Hem']; subst.
  destruct (id_eqb i x) eqn:E.
  - apply id_eqb_true in E.
    assert (Habs : forall r, In r rs -> col_id r <> i).
    { intros r Hr Er. apply Hx. rewrite E, <- Er. now apply in_map. }
    rewrite (map_assign_absent _ _ _ _ Habs). cbn. constructor; [|exact Hem'].
    intros Hin. apply in_map_iff in Hin as (r & Er & Hr).
    apply (Habs r Hr). apply Hother; [now right|exact Er].
  - constructor.
    + intros Hin. apply in_map_iff in Hin as (r' & Er' & Hr').
      apply in_map_iff in Hr' as (r & Er & Hr). subst r'.
      destruct (id_eqb i r) eqn:Ei.
      * cbn in Er'. assert (col_id x = i) by (apply Hother; cbn; auto).
        apply id_eqb_true in H. congruence.
      * apply Hy. rewrite <- Er'. now apply in_map.
    + apply IH; auto. intros r Hr. apply Hother. now right.
Qed.

Lemma wf_update st sn se i c l :
  wf st ->
  (forall n, sn = Some n -> PyStr.strip n = n /\ n <> "") ->
  (forall e, se = Some e ->
     PyStr.strip e = e /\ PyStr.contains "@" e = true
     /\ email_taken_by_other e i (users st) = false) ->
  wf (mkDb (map (fun r => if id_eqb i r then assign sn se r else r) (users st))
           (seq st) c l).
Proof.
  intros [H1 Hc H2 H3 H4 H5] Hn He. constructor; cbn [users seq].
  - exact H1.
  - now rewrite length_map.
  - apply Forall_forall. intros r' Hr'.
    apply in_map_iff in Hr' as (r & <- & Hr).
    rewrite Forall_forall in H2. specialize (H2 r Hr).
    now destruct (id_eqb i r).
  - now rewrite map_id_assign.
  - destruct se as [e|].
    + destruct (He e eq_refl) as (_ & _ & Hfree).
      now apply unique_after_update.
    + rewrite map_map.
      erewrite map_ext; [exact H4|]. intros r. now destruct (id_eqb i r).
  - apply Forall_forall. intros r' Hr'.
    apply in_map_iff in Hr' as (r & <- & Hr).
    rewrite Forall_forall in H5. specialize (H5 r Hr).
    destruct (id_eqb i r); [|exact H5].
    destruct H5 as (A1 & A2 & A3 & A4 & A5).
    unfold row_ok, assign; cbn.
    destruct sn as [n|], se as [e|];
      try destruct (Hn n eq_refl) as [B1 B2];
      try destruct (He e eq_refl) as (B3 & B4 & _); auto 6.
Qed.

End Invariant.

Section Preservation.
Import Sqlite.

Lemma same_store_refl st : same_store st st.
Proof. now split. Qed.

Lemma set_name_ok name n :
  truthy name
  && (negb (isinstance_str name)
      || (PyStr.len (PyStr.strip (as_str name)) =? 0)) = false ->
  (if truthy name then Some (PyStr.strip (as_str name)) else None) = Some n ->
  PyStr.strip n = n /\ n <> "".
Proof.
  intros Hc Hs. destruct (truthy name); [|discriminate].
  injection Hs as <-. cbn [andb] in Hc.
  apply orb_false_iff in Hc as [_ Hc]. split; [apply strip_idem|].
  now apply len_zero.
Qed.

Lemma set_email_ok email e :
  truthy email
  && (negb (isinstance_str email)
      || negb (PyStr.contains "@" (as_str email))) = false ->
  (if truthy email then Some (PyStr.strip (as_str email)) else None) = Some e ->
  PyStr.strip e = e /\ PyStr.contains "@" e = true.
Proof.
  intros Hc Hs. destruct (truthy email); [|discriminate].
  injection Hs as <-. cbn [andb] in Hc.
  apply orb_false_iff in Hc as [_ Hc]. apply negb_false_iff in Hc.
  split; [apply strip_idem|]. now apply contains_strip.
Qed.

Lemma create_user_wf now name email st :
  wf st -> wf (snd (create_user now name email st)).
Proof.
  intros Hwf.
  destruct (name_cases name) as [Hb | (n & -> & Hn)];
    [now rewrite create_user_bad_name|].
  destruct (email_cases email) as [Hb | (e & -> & He)];
    [now rewrite create_user_bad_email|].
  rewrite create_user_run by assumption. cbv zeta.
  destruct (exhausted st) eqn:Hleft; cbn [snd].
  { eapply wf_same_store; [|exact Hwf]. now split. }
  destruct (email_taken (PyStr.strip e) (users st)) eqn:Ht; cbn [snd].
  - eapply wf_same_store; [|exact Hwf]. now split.
  - now apply wf_insert.
Qed.

Lemma read_user_wf v st : wf st -> wf (snd (read_user v st)).
Proof.
  intros Hwf.
  destruct (id_cases64 v) as [Hb | [(i & -> & Hi & Hm) | (i & -> & Hm)]].
  - now rewrite read_user_bad_id.
  - rewrite read_user_run by assumption. cbn [snd].
    eapply wf_same_store; [|exact Hwf]. now split.
  - rewrite read_user_overflow by assumption. cbn [snd].
    eapply wf_same_store; [|exact Hwf]. now split.
Qed.

Lemma read_all_users_wf limit offset st :
  wf st -> wf (snd (read_all_users limit offset st)).
Proof.
  intros Hwf.
  destruct (read_all_users_cases limit offset st) as [[_ E]|[_ E]];
    rewrite E; (eapply wf_same_store; [|exact Hwf]); now split.
Qed.

Lemma delete_user_wf v st : wf st -> wf (snd (delete_user v st)).
Proof.
  intros Hwf.
  destruct (id_cases64 v) as [Hb | [(i & -> & Hi & Hm) | (i & -> & Hm)]].
  - now rewrite delete_user_bad_id.
  - rewrite delete_user_run by assumption.
    destruct (find (id_eqb i) (users st)); cbn [snd].
    + now apply wf_delete.
    + eapply wf_same_store; [|exact Hwf]. now split.
  - rewrite delete_user_overflow by assumption. cbn [snd].
    eapply wf_same_store; [|exact Hwf]. now split.
Qed.

Lemma update_user_wf v name email st :
  wf st -> wf (snd (update_user v name email st)).
Proof.
  intros Hwf.
  assert (Hsame : forall c l, wf (mkDb (users st) (seq st) c l)).
  { intros c l. eapply wf_same_store; [|exact Hwf]. now split. }
  destruct (id_cases64 v) as [Hb | [(i & -> & Hi & Hm) | (i & -> & Hm)]];
    [now rewrite update_user_bad_id| |].
  2:{ destruct (truthy name || truthy email) eqn:Hsup.
      - rewrite update_user_overflow by assumption. apply Hsame.
      - apply orb_false_iff in Hsup as [Hn He].
        rewrite update_user_no_field
          by (assumption || (unfold max_rowid in Hm; lia)).
        exact Hwf. }
  destruct (truthy name || truthy email) eqn:Hsup.
  2:{ apply orb_false_iff in Hsup as [Hn He].
      now rewrite update_user_no_field. }
  rewrite update_user_run by assumption. cbv zeta.
  destruct (find (id_eqb i) (users st)) as [old|]; [|apply Hsame].
  destruct (truthy name && _) eqn:Cn; [apply Hsame|].
  destruct (truthy email && _) eqn:Ce; [apply Hsame|].
  destruct (match (if truthy email then _ else _) with
            | Some e => _ | None => false end) eqn:Clash; cbn [snd];
    [apply Hsame|].
  apply wf_update; [exact Hwf| |].
  - intros n Hs. exact (set_name_ok name n Cn Hs).
  - intros e Hs. destruct (set_email_ok email e Ce Hs) as [A B].
    rewrite Hs in Clash. auto.
Qed.

(** What one call can do to the table and the counter. *)
Lemma exec_store_cases c st :
  let st' := snd (exec c st) in
  same_store st st'
  \/ (exists r, users st' = (users st ++ [r])%list
                /\ col_id r = next_rowid st
                /\ seq st' = next_rowid st)
  \/ (exists sn se i,
        users st' = map (fun r => if id_eqb i r then assign sn se r else r)
                        (users st)
        /\ seq st' = seq st)
  \/ (exists i, users st' = filter (fun r => negb (id_eqb i r)) (users st)
                /\ seq st' = seq st).
Proof.
  cbv zeta.
  destruct c as [now name email|v|limit offset|v name email|v]; cbn [exec].
  - destruct (name_cases name) as [Hb | (n & -> & Hn)];
      [rewrite create_user_bad_name by assumption; left; now split|].
    destruct (email_cases email) as [Hb | (e & -> & He)];
      [rewrite create_user_bad_email by assumption; left; now split|].
    rewrite create_user_run by assumption. cbv zeta.
    destruct (exhausted st); [left; now split|].
    destruct (email_taken _ _); cbn [snd users seq];
      [left; now split|].
    right; left. eexists. split; [reflexivity|]. now split.
  - left.
    destruct (id_cases64 v) as [Hb | [(i & -> & Hi & Hm) | (i & -> & Hm)]].
    + rewrite read_user_bad_id by assumption. now split.
    + rewrite read_user_run by assumption. now split.
    + rewrite read_user_overflow by assumption. now split.
  - left.
    destruct (read_all_users_cases limit offset st) as [[_ E]|[_ E]];
      rewrite E; now split.
  - destruct (id_cases64 v) as [Hb | [(i & -> & Hi & Hm) | (i & -> & Hm)]];
      [rewrite update_user_bad_id by assumption; left; now split| |].
    2:{ left. destruct (truthy name || truthy email) eqn:Hsup.
        - rewrite update_user_overflow by assumption. now split.
        - apply orb_false_iff in Hsup as [Hn He].
          rewrite update_user_no_field
            by (assumption || (unfold max_rowid in Hm; lia)).
          now split. }
    destruct (truthy name || truthy email) eqn:Hsup.
    2:{ apply orb_false_iff in Hsup as [Hn He].
        rewrite update_user_no_field by assumption. left; now split. }
    rewrite update_user_run by assumption. cbv zeta.
    destruct (find _ _); [|left; now split].
    destruct (truthy name && _); [left; now split|].
    destruct (truthy email && _); [left; now split|].
    destruct (match (if truthy email then _ else _) with
              | Some e => _ | None => false end); cbn [snd users seq];
      [left; now split|].
    right; right; left. do 3 eexists. split; reflexivity.
  - destruct (id_cases64 v) as [Hb | [(i & -> & Hi & Hm) | (i & -> & Hm)]];
      [rewrite delete_user_bad_id by assumption; left; now split| |].
    2:{ rewrite delete_user_overflow by assumption. left; now split. }
    rewrite delete_user_run by assumption.
    destruct (find _ _); cbn [snd users seq]; [|left; now split].
    right; right; right. eexists. split; reflexivity.
Qed.

(** An id once retired is never given out again: the AUTOINCREMENT key
    only grows. *)
Lemma retired_exec c st i : retired i st -> retired i (snd (exec c st)).
Proof.
  intros [Hle Habs].
  destruct (exec_store_cases c st)
    as [[Hu Hs] | [(r & Hu & Hr & Hs) | [(sn & se & j & Hu & Hs)
                                        | (j & Hu & Hs)]]];
    unfold retired; rewrite Hu, Hs.
  - now split.
  - assert (seq st < next_rowid st) by (unfold next_rowid; lia).
    split; [lia|]. intros x Hx. apply in_app_or in Hx as [Hx|[<-|[]]].
    + now apply Habs.
    + lia.
  - split; [exact Hle|]. intros x Hx.
    apply in_map_iff in Hx as (y & <- & Hy).
    specialize (Habs y Hy). now destruct (id_eqb j y).
  - split; [exact Hle|]. intros x Hx.
    apply filter_In in Hx as [Hx _]. now apply Habs.
Qed.

Lemma retired_run_calls cs st i : retired i st -> retired i (run_calls cs st).
Proof.
  revert st. induction cs as [|c cs IH]; intros st H; cbn; [exact H|].
  apply IH. now apply retired_exec.
Qed.

Lemma run_calls_reachable cs st : reachable st -> reachable (run_calls cs st).
Proof.
  revert st. induction cs as [|c cs IH]; intros st H; cbn; [exact H|].
  apply IH. now constructor.
Qed.

(** Every call keeps the store well formed. *)
Theorem exec_wf c st : wf st -> wf (snd (exec c st)).
Proof.
  destruct c; cbn [exec].
  - apply create_user_wf.
  - apply read_user_wf.
  - apply read_all_users_wf.
  - apply update_user_wf.
  - apply delete_user_wf.
Qed.

Theorem reachable_wf st : reachable st -> wf st.
Proof.
  induction 1 as [|c st _ IH]; [apply wf_empty|now apply exec_wf].
Qed.




(** The ids of a well-formed store can be bound. *)
Lemma wf_id_bound st r :
  wf st -> In r (users st) -> 0 < col_id r /\ col_id r <= max_rowid.
Proof.
  intros [H1 _ H2 _ _ _] Hr. rewrite Forall_forall in H2.
  specialize (H2 r Hr). lia.
Qed.

End Preservation.

(** ** ORDER BY id DESC *)

Section Ordering.
Import Sqlite.

Lemma insert_desc_perm r rs : Permutation (r :: rs) (insert_desc r rs).
Proof.
  induction rs as [|x rs IH]; cbn; [reflexivity|].
  destruct (col_id x <=? col_id r); [reflexivity|].
  rewrite perm_swap. now constructor.
Qed.

Lemma order_by_id_desc_perm rs : Permutation (order_by_id_desc rs) rs.
Proof.
  induction rs as [|x rs IH]; cbn; [constructor|].
  rewrite <- insert_desc_perm. now constructor.
Qed.



End Ordering.

(** ** The states the sequence counter can reach

    Creating a record and deleting it moves the counter by one and leaves
    the table empty: every value of the counter up to the largest id is
    reached, with an empty table. *)


(** * The claims of the specification *)

(** ** Creation *)







(** ** Deletion *)




(** ** Update *)

(** C5.  When [update_user] succeeds, the record it returns is the record
    that had the id, with the same id and the same timestamp; a field that
    was not supplied ([None], or the empty string the code treats alike)
    keeps its value, a supplied one holds the trimmed new value; the record
    returned is the one now stored, every other row is as it was, and the
    counter did not move. *)
Theorem update_user_frame st user_id name email resp st' :
  update_user user_id name email st = (Return resp, st') ->
  exists old new,
    In old (users st) /\ col_id old = as_int user_id
    /\ data resp = OneUser new
    /\ find (Sqlite.id_eqb (as_int user_id)) (users st') = Some new
    /\ col_id new = col_id old
    /\ col_created_at new = col_created_at old
    /\ (truthy name = false -> col_name new = col_name old)
    /\ (truthy email = false -> col_email new = col_email old)
    /\ (truthy name = true -> col_name new = PyStr.strip (as_str name))
    /\ (truthy email = true -> col_email new = PyStr.strip (as_str email))
    /\ (forall j, j <> as_int user_id ->
          find (Sqlite.id_eqb j) (users st')
          = find (Sqlite.id_eqb j) (users st))
    /\ seq st' = seq st.
Proof.
  intros Hrun.
  destruct (id_cases64 user_id)
    as [Hb | [(i & -> & Hi & Hm) | (i & -> & Hm)]];
    [rewrite update_user_bad_id in Hrun by assumption; discriminate|
    |rewrite update_user_large_id in Hrun by assumption;
     destruct (truthy name || truthy email); discriminate].
  destruct (truthy name || truthy email) eqn:Hsup.
  2:{ apply orb_false_iff in Hsup as [Hn He].
      rewrite update_user_no_field in Hrun by assumption. discriminate. }
  rewrite update_user_run in Hrun by assumption. cbv zeta in Hrun.
  destruct (find (Sqlite.id_eqb i) (users st)) as [old|] eqn:Hfind;
    [|discriminate].
  destruct (truthy name && _); [discriminate|].
  destruct (truthy email && _); [discriminate|].
  destruct (match (if truthy email then _ else _) with
            | Some e => _ | None => false end); [discriminate|].
  injection Hrun as <- <-.
  apply find_id_some in Hfind as Hold. destruct Hold as [Hin Hid].
  exists old. eexists. cbn [as_int data users seq].
  split; [exact Hin|]. split; [exact Hid|]. split; [reflexivity|].
  split; [now rewrite find_map_assigned, Hfind|].
  split; [reflexivity|]. split; [reflexivity|].
  split; [now intros ->|]. split; [now intros ->|].
  split; [now intros ->|]. split; [now intros ->|].
  split; [|reflexivity].
  intros j Hj. apply find_map_other. congruence.
Qed.

Lemma update_user_frame_witness :
  exists old new,
    In old [mkRow 1 "Bob" "bob@x.com" (Some "2024-05-01 09:30:00")]
    /\ col_id new = col_id old
    /\ col_created_at new = col_created_at old
    /\ col_email new = col_email old.
Proof.
  destruct (update_user_frame
              (mkDb [mkRow 1 "Bob" "bob@x.com" (Some "2024-05-01 09:30:00")]
                    1 0 [])
              (VInt 1) (VStr "Robert") VNone
              (mkResponse true
                 (OneUser (mkRow 1 "Robert" "bob@x.com"
                                 (Some "2024-05-01 09:30:00")))
                 (Some "User updated successfully") None)
              (mkDb [mkRow 1 "Robert" "bob@x.com"
                           (Some "2024-05-01 09:30:00")]
                    1 0 [SELECT_by_id 1;
                         UPDATE_user (Some "Robert") None 1;
                         SELECT_by_id 1]))
    as (old & new & H1 & _ & _ & _ & H2 & H3 & _ & H4 & _).
  - reflexivity.
  - exists old, new. repeat split; try assumption. apply H4. reflexivity.
Defined.

(** ** Listing *)







(** ** Validation *)

Lemma not_found_not_validation i : is_ValidationError (NotFoundError i) = false.
Proof. reflexivity. Qed.

(** C8, as the code has it.  A call that ends in a validation error leaves
    the table and the counter as they were.  The error is raised before
    anything is asked of the engine, with the state untouched, in
    [create_user], [read_user], [delete_user] and for the first two checks of
    [update_user]; the checks of [update_user] on a supplied name or email
    come after the connection is opened and the record looked up, so there
    the one SELECT by id has reached the engine, and the record exists. *)
Theorem validation_error_effect c st e st' :
  exec c st = (Raise e, st') -> is_ValidationError e = true ->
  same_store st st'
  /\ (st' = st
      \/ exists i name email old,
           c = Update (VInt i) name email
           /\ find (Sqlite.id_eqb i) (users st) = Some old
           /\ (e = ValueError "Name must be a non-empty string"
               \/ e = ValueError "Email must be a valid email address")
           /\ log st' = (log st ++ [SELECT_by_id i])%list).
Proof.
  intros Hrun Hval.
  assert (Hnf : forall i s, e = NotFoundError i -> s) by
    (intros i s ->; rewrite not_found_not_validation in Hval; discriminate).
  assert (Hdup : forall s, e = DuplicateError -> s) by
    (intros s ->; discriminate).
  assert (Hbig : forall s, e = Sqlite.too_large -> s) by
    (intros s ->; discriminate).
  assert (Hfull : forall s, e = Sqlite.full -> s) by
    (intros s ->; discriminate).
  destruct c as [now name email|v|limit offset|v name email|v];
    cbn [exec] in Hrun.
  - destruct (name_cases name) as [Hb | (n & -> & Hn)].
    { rewrite create_user_bad_name in Hrun by assumption.
      injection Hrun as _ <-. split; [apply same_store_refl|now left]. }
    destruct (email_cases email) as [Hb | (em & -> & He)].
    { rewrite create_user_bad_email in Hrun by assumption.
      injection Hrun as _ <-. split; [apply same_store_refl|now left]. }
    rewrite create_user_run in Hrun by assumption. cbv zeta in Hrun.
    destruct (Sqlite.exhausted st).
    { injection Hrun as <- _. now apply Hfull. }
    destruct (Sqlite.email_taken _ _); [|discriminate].
    injection Hrun as <- _. now apply Hdup.
  - destruct (id_cases64 v) as [Hb | [(i & -> & Hi & Hm) | (i & -> & Hm)]].
    { rewrite read_user_bad_id in Hrun by assumption.
      injection Hrun as _ <-. split; [apply same_store_refl|now left]. }
    2:{ rewrite read_user_overflow in Hrun by assumption.
        injection Hrun as <- _. now apply Hbig. }
    rewrite read_user_run in Hrun by assumption.
    destruct (find _ _); [discriminate|].
    injection Hrun as <- _. now apply (Hnf i).
  - destruct (read_all_users_cases limit offset st) as [[_ E]|[_ E]];
      rewrite E in Hrun; [discriminate|].
    injection Hrun as <- _. now apply Hbig.
  - destruct (id_cases64 v) as [Hb | [(i & -> & Hi & Hm) | (i & -> & Hm)]].
    { rewrite update_user_bad_id in Hrun by assumption.
      injection Hrun as _ <-. split; [apply same_store_refl|now left]. }
    2:{ rewrite update_user_large_id in Hrun by assumption.
        destruct (truthy name || truthy email).
        - injection Hrun as <- _. now apply Hbig.
        - injection Hrun as _ <-. split; [apply same_store_refl|now left]. }
    destruct (truthy name || truthy email) eqn:Hsup.
    2:{ apply orb_false_iff in Hsup as [Hn He].
        rewrite update_user_no_field in Hrun by assumption.
        injection Hrun as _ <-. split; [apply same_store_refl|now left]. }
    rewrite update_user_run in Hrun by assumption. cbv zeta in Hrun.
    destruct (find (Sqlite.id_eqb i) (users st)) as [old|] eqn:Hfind.
    2:{ injection Hrun as <- _. now apply (Hnf i). }
    destruct (truthy name && _).
    { injection Hrun as <- <-. split; [now split|].
      right. exists i, name, email, old. auto. }
    destruct (truthy email && _).
    { injection Hrun as <- <-. split; [now split|].
      right. exists i, name, email, old. auto. }
    destruct (match (if truthy email then _ else _) with
              | Some e => _ | None => false end); [|discriminate].
    injection Hrun as <- _. now apply Hdup.
  - destruct (id_cases64 v) as [Hb | [(i & -> & Hi & Hm) | (i & -> & Hm)]].
    { rewrite delete_user_bad_id in Hrun by assumption.
      injection Hrun as _ <-. split; [apply same_store_refl|now left]. }
    2:{ rewrite delete_user_overflow in Hrun by assumption.
        injection Hrun as <- _. now apply Hbig. }
    rewrite delete_user_run in Hrun by assumption.
    destruct (find _ _); [discriminate|].
    injection Hrun as <- _. now apply (Hnf i).
Qed.

Lemma validation_error_effect_witness :
  same_store empty_db empty_db.
Proof.
  destruct (validation_error_effect
              (Create "2024-05-01 09:30:00" (VStr "  ") (VStr "ann@x.com"))
              empty_db (ValueError "Name must be a non-empty string") empty_db)
    as [H _].
  - reflexivity.
  - reflexivity.
  - exact H.
Defined.

(** C8 as stated fails in [update_user]: with a blank name for an existing
    record the validation error is raised after the SELECT by id has run. *)
Lemma update_user_validates_after_lookup :
  ~ (forall c st e st',
       exec c st = (Raise e, st') -> is_ValidationError e = true ->
       log st' = log st).
Proof.
  intros H.
  pose (st := snd (exec (Create "2024-05-01 09:30:00" (VStr "Bob")
                                (VStr "bob@x.com")) empty_db)).
  specialize (H (Update (VInt 1) (VStr "  ") VNone) st
                (ValueError "Name must be a non-empty string")
                (mkDb (users st) (seq st) 1 (log st ++ [SELECT_by_id 1]))
                eq_refl eq_refl).
  vm_compute in H. discriminate H.
Qed.

(** C9.  In every state and for every id, [update_user] without a name and
    without an email raises a validation error (the one of the id check when
    the id is not a positive integer, the at-least-one-field one otherwise)
    and hands back the state it was given: no record and nothing else has
    changed. *)
Theorem update_user_without_fields st user_id :
  update_user user_id VNone VNone st
  = (Raise (ValueError
       (if negb (isinstance_int user_id) || (as_int user_id <=? 0)
        then "User ID must be a positive integer"
        else "At least one field (name or email) must be provided")), st)
  /\ exists e, update_user user_id VNone VNone st = (Raise e, st)
               /\ is_ValidationError e = true.
Proof.
  unfold update_user.
  destruct (negb (isinstance_int user_id) || (as_int user_id <=? 0));
    cbn; (split; [reflexivity|]); eexists; split; reflexivity.
Qed.



(** ** Connections *)

(** A call that succeeds has closed the connection it opened. *)
Lemma success_releases_connection c st resp st' :
  exec c st = (Return resp, st') -> conns st' = conns st.
Proof.
  intros Hrun.
  destruct c as [now name email|v|limit offset|v name email|v];
    cbn [exec] in Hrun.
  - destruct (name_cases name) as [Hb | (n & -> & Hn)];
      [rewrite create_user_bad_name in Hrun by assumption; discriminate|].
    destruct (email_cases email) as [Hb | (em & -> & He)];
      [rewrite create_user_bad_email in Hrun by assumption; discriminate|].
    rewrite create_user_run in Hrun by assumption. cbv zeta in Hrun.
    destruct (Sqlite.exhausted st); [discriminate|].
    destruct (Sqlite.email_taken _ _); [discriminate|].
    now injection Hrun as _ <-.
  - destruct (id_cases64 v) as [Hb | [(i & -> & Hi & Hm) | (i & -> & Hm)]];
      [rewrite read_user_bad_id in Hrun by assumption; discriminate|
      |rewrite read_user_overflow in Hrun by assumption; discriminate].
    rewrite read_user_run in Hrun by assumption.
    now injection Hrun as _ <-.
  - destruct (read_all_users_cases limit offset st) as [[_ E]|[_ E]];
      rewrite E in Hrun; [|discriminate].
    now injection Hrun as _ <-.
  - destruct (id_cases64 v) as [Hb | [(i & -> & Hi & Hm) | (i & -> & Hm)]];
      [rewrite update_user_bad_id in Hrun by assumption; discriminate|
      |rewrite update_user_large_id in Hrun by assumption;
       destruct (truthy name || truthy email); discriminate].
    destruct (truthy name || truthy email) eqn:Hsup.
    2:{ apply orb_false_iff in Hsup as [Hn He].
        rewrite update_user_no_field in Hrun by assumption. discriminate. }
    rewrite update_user_run in Hrun by assumption. cbv zeta in Hrun.
    destruct (find _ _); [|discriminate].
    destruct (truthy name && _); [discriminate|].
    destruct (truthy email && _); [discriminate|].
    destruct (match (if truthy email then _ else _) with
              | Some e => _ | None => false end); [discriminate|].
    now injection Hrun as _ <-.
  - destruct (id_cases64 v) as [Hb | [(i & -> & Hi & Hm) | (i & -> & Hm)]];
      [rewrite delete_user_bad_id in Hrun by assumption; discriminate|
      |rewrite delete_user_overflow in Hrun by assumption; discriminate].
    rewrite delete_user_run in Hrun by assumption.
    destruct (find _ _); [|discriminate].
    now injection Hrun as _ <-.
Qed.

(** [read_user] closes before it answers or raises its not-found error,
    and [read_all_users] before it answers: for an id and an offset that
    can be bound, the reads leave no connection open. *)
Lemma reads_release_connection st :
  (forall v, as_int v <= Sqlite.max_rowid ->
             conns (snd (read_user v st)) = conns st)
  /\ (forall limit offset, as_int offset <= Sqlite.max_rowid ->
        conns (snd (read_all_users limit offset st)) = conns st).
Proof.
  split.
  - intros v Hfit.
    destruct (id_cases64 v) as [Hb | [(i & -> & Hi & Hm) | (i & -> & Hm)]].
    + now rewrite read_user_bad_id.
    + now rewrite read_user_run.
    + cbn in Hfit. lia.
  - intros limit offset Hfit.
    destruct (read_all_users_cases limit offset st) as [[_ E]|[Hbig _]];
      [now rewrite E|].
    exfalso. destruct offset as [|z|x]; cbn in Hbig, Hfit;
      try (unfold Sqlite.max_rowid in Hbig; lia).
    destruct (z <? 0); unfold Sqlite.max_rowid in *; lia.
Qed.

(** C2 does not hold of the code.  After one record was created, with no
    connection open: a second [create_user] with the same email raises with
    its connection still open, and so do [update_user] and [delete_user] on
    an id that has no record and [update_user] with a blank name; only
    [read_user] closes before it raises. *)
Theorem failed_calls_leave_connection_open :
  let st := snd (exec (Create "2024-05-01 09:30:00" (VStr "Bob")
                              (VStr "bob@x.com")) empty_db) in
  conns st = 0%nat
  /\ (let out := exec (Create "2024-05-02 10:00:00" (VStr "Bob2")
                             (VStr "bob@x.com")) st in
      fst out = Raise (ValueError "Email already exists")
      /\ conns (snd out) = 1%nat)
  /\ (let out := exec (Delete (VInt 7)) st in
      fst out = Raise (ValueError "User with ID 7 not found")
      /\ conns (snd out) = 1%nat)
  /\ (let out := exec (Update (VInt 7) (VStr "Rob") VNone) st in
      fst out = Raise (ValueError "User with ID 7 not found")
      /\ conns (snd out) = 1%nat)
  /\ (let out := exec (Update (VInt 1) (VStr "  ") VNone) st in
      fst out = Raise (ValueError "Name must be a non-empty string")
      /\ conns (snd out) = 1%nat)
  /\ (let out := exec (Get (VInt 7)) st in
      fst out = Raise (ValueError "User with ID 7 not found")
      /\ conns (snd out) = 0%nat).
Proof. cbv zeta. repeat split; reflexivity. Qed.

(** * Further properties of the manager and of the tools *)

(** ** What a call that answers, and a call that raises, has done *)

Section Inversions.
Import Sqlite.

Lemma create_user_success_inv now name email st resp st' :
  create_user now name email st = (Return resp, st') ->
  exists n e,
    name = VStr n /\ email = VStr e /\ valid_name n /\ valid_email e
    /\ email_taken (PyStr.strip e) (users st) = false
    /\ resp = mkResponse true
                (OneUser (mkRow (next_rowid st) (PyStr.strip n)
                                (PyStr.strip e) (Some now)))
                (Some "User created successfully") None
    /\ users st' = (users st ++ [mkRow (next_rowid st) (PyStr.strip n)
                                      (PyStr.strip e) (Some now)])%list
    /\ seq st' = next_rowid st
    /\ conns st' = conns st
    /\ next_rowid st <= max_rowid.
Proof.
  intros Hrun.
  destruct (name_cases name) as [Hb | (n & -> & Hn)];
    [rewrite create_user_bad_name in Hrun by assumption; discriminate|].
  destruct (email_cases email) as [Hb | (e & -> & He)];
    [rewrite create_user_bad_email in Hrun by assumption; discriminate|].
  rewrite create_user_run in Hrun by assumption. cbv zeta in Hrun.
  destruct (exhausted st) eqn:Hleft; [discriminate|].
  destruct (email_taken _ _) eqn:Ht; [discriminate|].
  injection Hrun as <- <-. exists n, e.
  apply exhausted_false in Hleft. repeat split; assumption.
Qed.

Lemma update_user_success_inv user_id name email st resp st' :
  update_user user_id name email st = (Return resp, st') ->
  exists i old sn se,
    user_id = VInt i /\ 0 < i /\ i <= max_rowid
    /\ find (id_eqb i) (users st) = Some old
    /\ resp = mkResponse true (OneUser (assign sn se old))
                (Some "User updated successfully") None
    /\ users st' = map (fun r => if id_eqb i r then assign sn se r else r)
                       (users st)
    /\ seq st' = seq st
    /\ conns st' = conns st.
Proof.
  intros Hrun.
  destruct (id_cases64 user_id)
    as [Hb | [(i & -> & Hi & Hm) | (i & -> & Hm)]];
    [rewrite update_user_bad_id in Hrun by assumption; discriminate|
    |rewrite update_user_large_id in Hrun by assumption;
     destruct (truthy name || truthy email); discriminate].
  destruct (truthy name || truthy email) eqn:Hsup.
  2:{ apply orb_false_iff in Hsup as [Hn He].
      rewrite update_user_no_field in Hrun by assumption. discriminate. }
  rewrite update_user_run in Hrun by assumption. cbv zeta in Hrun.
  destruct (find (id_eqb i) (users st)) as [old|] eqn:Hfind; [|discriminate].
  destruct (truthy name && _); [discriminate|].
  destruct (truthy email && _); [discriminate|].
  destruct (match (if truthy email then _ else _) with
            | Some e => _ | None => false end); [discriminate|].
  injection Hrun as <- <-. exists i, old. do 2 eexists.
  repeat split; try reflexivity; assumption.
Qed.

Lemma delete_user_success_inv user_id st resp st' :
  delete_user user_id st = (Return resp, st') ->
  exists i r,
    user_id = VInt i /\ 0 < i /\ i <= max_rowid
    /\ find (id_eqb i) (users st) = Some r
    /\ data resp = OneUser r
    /\ users st' = filter (fun x => negb (id_eqb i x)) (users st)
    /\ seq st' = seq st
    /\ conns st' = conns st.
Proof.
  intros Hrun.
  destruct (id_cases64 user_id)
    as [Hb | [(i & -> & Hi & Hm) | (i & -> & Hm)]];
    [rewrite delete_user_bad_id in Hrun by assumption; discriminate|
    |rewrite delete_user_overflow in Hrun by assumption; discriminate].
  rewrite delete_user_run in Hrun by assumption.
  destruct (find (id_eqb i) (users st)) as [r|] eqn:Hfind; [|discriminate].
  injection Hrun as <- <-. exists i, r.
  repeat split; try reflexivity; assumption.
Qed.

Lemma clamp_offset_big v : max_rowid < clamp_offset v -> max_rowid < as_int v.
Proof.
  destruct v as [|z|x]; cbn; try (unfold max_rowid; lia).
  destruct (z <? 0); unfold max_rowid; lia.
Qed.

(** A call that raises: what it raised and what it left behind. *)
Lemma exec_raise_cases c st e st' :
  exec c st = (Raise e, st') ->
  same_store st st'
  /\ ((exists m, e = ValueError m /\ manager_message m)
      \/ (e = too_large /\ max_rowid < int_argument c)
      \/ (e = full /\ exhausted st = true
          /\ exists now name email, c = Create now name email))
  /\ (conns st' = conns st \/ conns st' = S (conns st)).
Proof.
  intros Hrun.
  assert (Hval : forall m, In m validation_messages -> st' = st ->
            e = ValueError m ->
            same_store st st'
            /\ ((exists m, e = ValueError m /\ manager_message m)
                \/ (e = too_large /\ max_rowid < int_argument c)
                \/ (e = full /\ exhausted st = true
                    /\ exists now name email, c = Create now name email))
            /\ (conns st' = conns st \/ conns st' = S (conns st))).
  { intros m Hm -> ->. split; [apply same_store_refl|].
    split; [left; exists m; split; [reflexivity|now left]|now left]. }
  assert (Hraise : forall m c' l', manager_message m ->
            e = ValueError m ->
            st' = mkDb (users st) (seq st) c' l' ->
            c' = conns st \/ c' = S (conns st) ->
            same_store st st'
            /\ ((exists m, e = ValueError m /\ manager_message m)
                \/ (e = too_large /\ max_rowid < int_argument c)
                \/ (e = full /\ exhausted st = true
                    /\ exists now name email, c = Create now name email))
            /\ (conns st' = conns st \/ conns st' = S (conns st))).
  { intros m c' l' Hm -> -> Hc. split; [now split|].
    split; [left; exists m; now split|exact Hc]. }
  assert (Hbig : max_rowid < int_argument c ->
            e = too_large ->
            st' = mkDb (users st) (seq st) (S (conns st)) (log st) ->
            same_store st st'
            /\ ((exists m, e = ValueError m /\ manager_message m)
                \/ (e = too_large /\ max_rowid < int_argument c)
                \/ (e = full /\ exhausted st = true
                    /\ exists now name email, c = Create now name email))
            /\ (conns st' = conns st \/ conns st' = S (conns st))).
  { intros Hm -> ->. split; [now split|]. split; [|now right].
    right. left. now split. }
  assert (Hdup : manager_message "Email already exists")
    by (right; now left).
  assert (Hnf : forall i, manager_message (not_found_msg i))
    by (intros i; right; right; eauto).
  destruct c as [now name email|v|limit offset|v name email|v];
    cbn [exec] in Hrun.
  - destruct (name_cases name) as [Hb | (n & -> & Hn)].
    { rewrite create_user_bad_name in Hrun by assumption.
      injection Hrun as <- <-. eapply Hval; [|reflexivity..]. cbn; auto. }
    destruct (email_cases email) as [Hb | (em & -> & He)].
    { rewrite create_user_bad_email in Hrun by assumption.
      injection Hrun as <- <-. eapply Hval; [|reflexivity..]. cbn; auto. }
    rewrite create_user_run in Hrun by assumption. cbv zeta in Hrun.
    destruct (exhausted st) eqn:Hleft.
    { injection Hrun as <- <-. split; [now split|]. split; [|now right].
      right. right. split; [reflexivity|]. split; [reflexivity|]. eauto. }
    destruct (email_taken _ _); [|discriminate].
    injection Hrun as <- <-. eapply Hraise; [exact Hdup|reflexivity..|auto].
  - destruct (id_cases64 v) as [Hb | [(i & -> & Hi & Hm) | (i & -> & Hm)]].
    { rewrite read_user_bad_id in Hrun by assumption.
      injection Hrun as <- <-. eapply Hval; [|reflexivity..]. cbn; auto. }
    2:{ rewrite read_user_overflow in Hrun by assumption.
        injection Hrun as <- <-. now apply Hbig. }
    rewrite read_user_run in Hrun by assumption.
    destruct (find _ _); [discriminate|].
    injection Hrun as <- <-. eapply Hraise; [apply Hnf|reflexivity..|auto].
  - destruct (read_all_users_cases limit offset st) as [[_ E]|[Hm E]];
      rewrite E in Hrun; [discriminate|].
    injection Hrun as <- <-. apply Hbig; [|reflexivity..].
    now apply clamp_offset_big.
  - destruct (id_cases64 v) as [Hb | [(i & -> & Hi & Hm) | (i & -> & Hm)]].
    { rewrite update_user_bad_id in Hrun by assumption.
      injection Hrun as <- <-. eapply Hval; [|reflexivity..]. cbn; auto. }
    2:{ rewrite update_user_large_id in Hrun by assumption.
        destruct (truthy name || truthy email).
        - injection Hrun as <- <-. now apply Hbig.
        - injection Hrun as <- <-. eapply Hval; [|reflexivity..].
          cbn; auto. }
    destruct (truthy name || truthy email) eqn:Hsup.
    2:{ apply orb_false_iff in Hsup as [Hn He].
        rewrite update_user_no_field in Hrun by assumption.
        injection Hrun as <- <-. eapply Hval; [|reflexivity..].
        cbn; auto. }
    rewrite update_user_run in Hrun by assumption. cbv zeta in Hrun.
    destruct (find (id_eqb i) (users st)) as [old|] eqn:Hfind.
    2:{ injection Hrun as <- <-.
        eapply Hraise; [apply Hnf|reflexivity..|auto]. }
    destruct (truthy name && _).
    { injection Hrun as <- <-.
      eapply Hraise; [|reflexivity|reflexivity|auto]. left. cbn. tauto. }
    destruct (truthy email && _).
    { injection Hrun as <- <-.
      eapply Hraise; [|reflexivity|reflexivity|auto]. left. cbn. tauto. }
    destruct (match (if truthy email then _ else _) with
              | Some e => _ | None => false end); [|discriminate].
    injection Hrun as <- <-. eapply Hraise; [exact Hdup|reflexivity..|auto].
  - destruct (id_cases64 v) as [Hb | [(i & -> & Hi & Hm) | (i & -> & Hm)]].
    { rewrite delete_user_bad_id in Hrun by assumption.
      injection Hrun as <- <-. eapply Hval; [|reflexivity..]. cbn; auto. }
    2:{ rewrite delete_user_overflow in Hrun by assumption.
        injection Hrun as <- <-. now apply Hbig. }
    rewrite delete_user_run in Hrun by assumption.
    destruct (find _ _); [discriminate|].
    injection Hrun as <- <-. eapply Hraise; [apply Hnf|reflexivity..|auto].
Qed.

End Inversions.

(** ** Errors, data and connections *)



(** A call that raises has changed no data: the rows and the sequence
    counter are those of before, whatever the operation and the error. *)
Theorem failed_call_changes_no_data c st e st' :
  exec c st = (Raise e, st') -> users st' = users st /\ seq st' = seq st.
Proof. intros H. now apply exec_raise_cases in H. Qed.

Lemma failed_call_changes_no_data_witness :
  users (mkDb [] 0 1 [SELECT_by_id 3]) = users empty_db
  /\ seq (mkDb [] 0 1 [SELECT_by_id 3]) = seq empty_db.
Proof.
  apply (failed_call_changes_no_data (Delete (VInt 3)) empty_db
           (ValueError "User with ID 3 not found")).
  reflexivity.
Defined.

(** A call opens one connection at most and never closes one it did not
    open: afterwards the number of open connections is the same or one
    more, and it is the same whenever the call answered. *)
Theorem connection_accounting c st :
  (conns st <= conns (snd (exec c st)) <= S (conns st))%nat
  /\ forall resp, fst (exec c st) = Return resp ->
                  conns (snd (exec c st)) = conns st.
Proof.
  destruct (exec c st) as [[resp|e] st'] eqn:Hrun; cbn [fst snd].
  - apply success_releases_connection in Hrun. split; [lia|].
    intros _ _. exact Hrun.
  - apply exec_raise_cases in Hrun as (_ & _ & Hc). split; [lia|].
    intros resp H. discriminate H.
Qed.



(** An [int] that does not fit in 64 bits is bound by no statement: on an
    id above 2^63 - 1, [read_user], [delete_user] and [update_user] (with a
    field to update) raise [OverflowError], and so does [read_all_users] on
    such an offset; the data is untouched, no statement has run, and the
    connection that was opened stays open. *)
Theorem too_large_int_overflows st i name email l :
  Sqlite.max_rowid < i -> truthy name || truthy email = true ->
  0 < l <= 1000 ->
  let raised := (Raise Sqlite.too_large,
                 mkDb (users st) (seq st) (S (conns st)) (log st)) in
  read_user (VInt i) st = raised
  /\ delete_user (VInt i) st = raised
  /\ update_user (VInt i) name email st = raised
  /\ read_all_users (VInt l) (VInt i) st = raised.
Proof.
  intros Hm Hsup Hl. cbv zeta. repeat split.
  - now apply read_user_overflow.
  - now apply delete_user_overflow.
  - now apply update_user_overflow.
  - now apply read_all_users_overflow.
Qed.

Lemma too_large_int_overflows_witness :
  read_user (VInt 9223372036854775808) empty_db
  = (Raise (OverflowError "Python int too large to convert to SQLite INTEGER"),
     mkDb [] 0 1 []).
Proof.
  apply (too_large_int_overflows empty_db 9223372036854775808
           (VStr "Bob") VNone 10).
  - reflexivity.
  - reflexivity.
  - lia.
Defined.



(** ** The table in every reachable state *)


(** In every state the calls can reach, no id and no email occurs in two
    rows of the table; every id is positive and at most the sequence
    counter, which is at most 2^63 - 1; every name is stored trimmed and is
    not empty, every email is stored trimmed and has an [@], every
    timestamp is set. *)
Theorem reachable_store_invariants st :
  reachable st ->
  NoDup (map col_id (users st))
  /\ NoDup (map col_email (users st))
  /\ seq st <= Sqlite.max_rowid
  /\ forall r, In r (users st) ->
       0 < col_id r <= seq st
       /\ PyStr.strip (col_name r) = col_name r /\ col_name r <> ""
       /\ PyStr.strip (col_email r) = col_email r
       /\ PyStr.contains "@" (col_email r) = true
       /\ col_created_at r <> None.
Proof.
  intros Hreach. destruct (reachable_wf st Hreach) as [W1 Wc W2 W3 W4 W5].
  rewrite Forall_forall in W2, W5.
  split; [exact W3|]. split; [exact W4|]. split; [apply W1|].
  intros r Hr. split; [apply (W2 r Hr)|apply (W5 r Hr)].
Qed.

Lemma reachable_store_invariants_witness :
  NoDup (map col_id
           (users (run_calls
                     [Create "2024-05-01 09:30:00" (VStr " Bob ")
                             (VStr "bob@x.com ");
                      Create "2024-05-02 10:00:00" (VStr "Ann")
                             (VStr "ann@x.com")] empty_db)))
  /\ NoDup (map col_email
              (users (run_calls
                        [Create "2024-05-01 09:30:00" (VStr " Bob ")
                                (VStr "bob@x.com ");
                         Create "2024-05-02 10:00:00" (VStr "Ann")
                                (VStr "ann@x.com")] empty_db))).
Proof.
  destruct (reachable_store_invariants
              (run_calls
                 [Create "2024-05-01 09:30:00" (VStr " Bob ")
                         (VStr "bob@x.com ");
                  Create "2024-05-02 10:00:00" (VStr "Ann")
                         (VStr "ann@x.com")] empty_db))
    as (H1 & H2 & _).
  - apply run_calls_reachable, reach_empty.
  - split; [exact H1|exact H2].
Defined.

Lemma seq_monotone c st : seq st <= seq (snd (exec c st)).
Proof.
  destruct (exec_store_cases c st)
    as [[_ Hs] | [(r & _ & _ & Hs) | [(sn & se & j & _ & Hs)
                                     | (j & _ & Hs)]]];
    rewrite Hs; try lia.
  unfold Sqlite.next_rowid. lia.
Qed.

Lemma seq_monotone_run_calls cs st : seq st <= seq (run_calls cs st).
Proof.
  revert st. induction cs as [|c cs IH]; intros st; [cbn; lia|].
  change (run_calls (c :: cs) st) with (run_calls cs (snd (exec c st))).
  specialize (IH (snd (exec c st))). pose proof (seq_monotone c st). lia.
Qed.

(** Ids only grow: the id of a created record is above every id of the
    table it was added to, and a record created later, after any calls in
    between (deletions too), gets a larger id still. *)
Theorem created_ids_increase now name email st resp st1 :
  create_user now name email st = (Return resp, st1) ->
  exists u,
    data resp = OneUser u
    /\ (forall r, In r (users st) -> col_id r < col_id u)
    /\ forall later now' name' email' resp' st2,
         create_user now' name' email' (run_calls later st1)
           = (Return resp', st2) ->
         exists u', data resp' = OneUser u' /\ col_id u < col_id u'.
Proof.
  intros Hrun.
  apply create_user_success_inv in Hrun
    as (n & e & _ & _ & _ & _ & _ & -> & _ & Hseq & _).
  eexists. split; [reflexivity|]. cbn [col_id]. split.
  - intros r Hr. now apply next_rowid_fresh.
  - intros later now' name' email' resp' st2 Hrun'.
    apply create_user_success_inv in Hrun'
      as (n' & e' & _ & _ & _ & _ & _ & -> & _).
    eexists. split; [reflexivity|]. cbn [col_id].
    pose proof (seq_monotone_run_calls later st1).
    unfold Sqlite.next_rowid at 2. lia.
Qed.

Lemma created_ids_increase_witness :
  exists u, OneUser (mkRow 1 "Bob" "bob@x.com" (Some "2024-05-01 09:30:00"))
            = OneUser u
            /\ forall r, In r (users empty_db) -> col_id r < col_id u.
Proof.
  destruct (created_ids_increase "2024-05-01 09:30:00" (VStr "Bob")
              (VStr "bob@x.com") empty_db
              (mkResponse true
                 (OneUser (mkRow 1 "Bob" "bob@x.com"
                                 (Some "2024-05-01 09:30:00")))
                 (Some "User created successfully") None)
              (snd (create_user "2024-05-01 09:30:00" (VStr "Bob")
                                (VStr "bob@x.com") empty_db)))
    as (u & H1 & H2 & _).
  - reflexivity.
  - exists u. split; [exact H1|exact H2].
Defined.

(** An id above the sequence counter was never given out: reading it, when
    it is at most 2^63 - 1, raises the not-found error. *)
Theorem read_user_unassigned_id st i :
  reachable st -> seq st < i -> i <= Sqlite.max_rowid ->
  fst (read_user (VInt i) st) = Raise (NotFoundError i).
Proof.
  intros Hreach Hi Hm. destruct (reachable_wf st Hreach) as [W1 Wc W2 _ _ _].
  rewrite Forall_forall in W2.
  rewrite read_user_run by lia. cbn [fst].
  assert (Hnone : find (Sqlite.id_eqb i) (users st) = None).
  { apply find_id_none. intros r Hr. specialize (W2 r Hr). lia. }
  now rewrite Hnone.
Qed.

Lemma read_user_unassigned_id_witness :
  fst (read_user (VInt 5) empty_db) = Raise (NotFoundError 5).
Proof.
  apply read_user_unassigned_id;
    [apply reach_empty|cbn; lia|unfold Sqlite.max_rowid; lia].
Defined.

(** [read_user] answers with a record exactly when that record is in the
    table under the id asked for. *)
Theorem read_user_finds_stored st i r :
  reachable st ->
  fst (read_user (VInt i) st) = found r <-> In r (users st) /\ col_id r = i.
Proof.
  intros Hreach. pose proof (reachable_wf st Hreach) as Hwf.
  pose proof Hwf as [W1 Wc W2 W3 _ _].
  rewrite Forall_forall in W2. split.
  - intros H.
    destruct (id_cases64 (VInt i))
      as [Hb | [(j & Ej & Hj & Hm) | (j & Ej & Hm)]].
    + rewrite read_user_bad_id in H by assumption. discriminate.
    + injection Ej as <-. rewrite read_user_run in H by assumption.
      cbn [fst] in H.
      destruct (find (Sqlite.id_eqb i) (users st)) as [x|] eqn:Hf;
        [|discriminate].
      injection H as <-. now apply find_id_some.
    + injection Ej as <-. rewrite read_user_overflow in H by assumption.
      discriminate.
  - intros [Hin <-]. destruct (wf_id_bound st r Hwf Hin) as [Hpos Hmax].
    rewrite read_user_run by assumption.
    cbn [fst]. now rewrite find_id_unique.
Qed.

Lemma read_user_finds_stored_witness :
  fst (read_user (VInt 1)
         (snd (exec (Create "2024-05-01 09:30:00" (VStr "Bob")
                            (VStr "bob@x.com")) empty_db)))
  = found (mkRow 1 "Bob" "bob@x.com" (Some "2024-05-01 09:30:00")).
Proof.
  apply read_user_finds_stored.
  - apply reach_exec, reach_empty.
  - split; [vm_compute; left|]; reflexivity.
Defined.

(** ** More on [update_user] *)







(** The record is looked up before the fields are checked: on a positive id
    of at most 2^63 - 1 without a record, [update_user] raises the not-found
    error whatever the name and the email supplied, blank or without [@] as
    they may be, and changes no data. *)
Theorem update_user_missing_record st i name email :
  0 < i <= Sqlite.max_rowid -> truthy name || truthy email = true ->
  (forall r, In r (users st) -> col_id r <> i) ->
  exists st',
    update_user (VInt i) name email st = (Raise (NotFoundError i), st')
    /\ same_store st st'.
Proof.
  intros [Hi Hm] Hsup Habs. apply find_id_none in Habs.
  rewrite update_user_run by assumption. cbv zeta. rewrite Habs.
  eexists. split; [reflexivity|now split].
Qed.

Lemma update_user_missing_record_witness :
  exists st',
    update_user (VInt 4) (VStr "   ") (VStr "no-at-sign") empty_db
      = (Raise (NotFoundError 4), st')
    /\ same_store empty_db st'.
Proof.
  apply update_user_missing_record.
  - unfold Sqlite.max_rowid. lia.
  - reflexivity.
  - intros r [].
Defined.

(** What [update_user] returns is what is stored: reading the id right
    after a successful update gives the record of the answer. *)
Theorem update_user_then_read st user_id name email resp st' :
  update_user user_id name email st = (Return resp, st') ->
  fst (read_user user_id st') = Return (mkResponse true (data resp) None None).
Proof.
  intros Hrun.
  apply update_user_success_inv in Hrun
    as (i & old & sn & se & -> & Hi & Hm & Hfind & -> & Hu & _).
  rewrite read_user_run by assumption. cbn [fst data].
  now rewrite Hu, find_map_assigned, Hfind.
Qed.

Lemma update_user_then_read_witness :
  fst (read_user (VInt 1)
         (snd (update_user (VInt 1) (VStr " Robert ") VNone
                 (mkDb [mkRow 1 "Bob" "bob@x.com" None] 1 0 []))))
  = found (mkRow 1 "Robert" "bob@x.com" None).
Proof.
  apply (update_user_then_read
           (mkDb [mkRow 1 "Bob" "bob@x.com" None] 1 0 [])
           (VInt 1) (VStr " Robert ") VNone
           (mkResponse true (OneUser (mkRow 1 "Robert" "bob@x.com" None))
                       (Some "User updated successfully") None)).
  reflexivity.
Defined.

(** ** More on [read_all_users] *)

Section Pages.
Import Sqlite.

Lemma listed_read_all_users_fit l o st :
  0 < l <= 1000 -> 0 <= o <= max_rowid ->
  listed (read_all_users (VInt l) (VInt o) st)
  = firstn (Z.to_nat l) (skipn (Z.to_nat o) (order_by_id_desc (users st))).
Proof.
  intros Hl Ho. rewrite read_all_users_run by (assumption || lia).
  unfold listed, window. cbn [fst data].
  now replace (l <? 0) with false by (symmetry; apply Z.ltb_ge; lia).
Qed.

(** In a well-formed store an offset too large to be bound is past the
    end of the table: no row is listed, as none would be. *)
Lemma listed_read_all_users l o st :
  wf st -> 0 < l <= 1000 -> 0 <= o ->
  listed (read_all_users (VInt l) (VInt o) st)
  = firstn (Z.to_nat l) (skipn (Z.to_nat o) (order_by_id_desc (users st))).
Proof.
  intros Hwf Hl Ho.
  destruct (Z_le_gt_dec o max_rowid) as [Hm|Hm];
    [now apply listed_read_all_users_fit|].
  rewrite read_all_users_overflow by (assumption || lia).
  unfold listed. cbn [fst].
  rewrite skipn_all2; [now rewrite firstn_nil|].
  rewrite (Permutation_length (order_by_id_desc_perm (users st))).
  destruct Hwf as [W1 Wc _ _ _ _]. lia.
Qed.

Lemma users_after_read_all_users limit offset st :
  users (snd (read_all_users limit offset st)) = users st.
Proof.
  destruct (read_all_users_cases limit offset st) as [[_ E]|[_ E]];
    now rewrite E.
Qed.

Lemma firstn_firstn_skipn {A} a b (l : list A) :
  (firstn a l ++ firstn b (skipn a l) = firstn (a + b) l)%list.
Proof.
  revert l. induction a as [|a IH]; intros l; [reflexivity|].
  destruct l as [|x l]; cbn; [now rewrite firstn_nil|].
  now rewrite IH.
Qed.

(** Sorting a table to which a row with the largest id was appended puts
    that row first and leaves the order of the others. *)
Lemma order_by_id_desc_newest rs u :
  (forall r, In r rs -> col_id r < col_id u) ->
  order_by_id_desc (rs ++ [u]) = u :: order_by_id_desc rs.
Proof.
  intros H. induction rs as [|x rs IH]; [reflexivity|].
  cbn [app]. unfold order_by_id_desc in *. cbn [fold_right].
  rewrite IH by (intros r Hr; apply H; now right).
  cbn [insert_desc].
  assert (Hx : col_id x < col_id u) by (apply H; now left).
  now replace (col_id u <=? col_id x) with false
    by (symmetry; apply Z.leb_gt; lia).
Qed.

End Pages.

(** In a reachable state, the page has [limit] rows, or the rows that
    remain after [offset] when they are fewer: none at all when the offset
    is at or past the end of the table (an offset above 2^63 - 1 is past
    the end of any table, and the call that raises on it lists nothing). *)
Theorem read_all_users_page_length st l o :
  reachable st -> 0 < l <= 1000 -> 0 <= o ->
  List.length (listed (read_all_users (VInt l) (VInt o) st))
  = Nat.min (Z.to_nat l) (List.length (users st) - Z.to_nat o).
Proof.
  intros Hreach Hl Ho. apply reachable_wf in Hreach.
  rewrite listed_read_all_users by assumption.
  rewrite length_firstn, length_skipn.
  now rewrite (Permutation_length (order_by_id_desc_perm (users st))).
Qed.

Lemma read_all_users_page_length_witness :
  List.length
    (listed (read_all_users (VInt 10) (VInt 3)
               (snd (exec (Create "2024-05-01 09:30:00" (VStr "Bob")
                                  (VStr "bob@x.com")) empty_db))))
  = 0%nat.
Proof.
  apply (read_all_users_page_length
           (snd (exec (Create "2024-05-01 09:30:00" (VStr "Bob")
                              (VStr "bob@x.com")) empty_db)) 10 3);
    [apply reach_exec, reach_empty|lia|lia].
Defined.

(** In a reachable state, pages follow one another without overlap and
    without a gap: the page of [l1] rows at [o] followed by the page of [l2]
    rows at [o + l1], asked for next, is the page of [l1 + l2] rows at
    [o]. *)
Theorem read_all_users_pages_compose st l1 l2 o :
  reachable st -> 0 < l1 -> 0 < l2 -> l1 + l2 <= 1000 -> 0 <= o ->
  (listed (read_all_users (VInt l1) (VInt o) st)
   ++ listed (read_all_users (VInt l2) (VInt (o + l1))
                (snd (read_all_users (VInt l1) (VInt o) st))))%list
  = listed (read_all_users (VInt (l1 + l2)) (VInt o) st).
Proof.
  intros Hreach H1 H2 H12 Ho.
  assert (Hwf1 : wf (snd (read_all_users (VInt l1) (VInt o) st)))
    by (apply (exec_wf (ListAll (VInt l1) (VInt o))), reachable_wf, Hreach).
  apply reachable_wf in Hreach.
  rewrite !listed_read_all_users by (assumption || lia).
  rewrite users_after_read_all_users.
  rewrite !Z2Nat.inj_add by lia.
  rewrite (Nat.add_comm (Z.to_nat o)), <- skipn_skipn.
  apply firstn_firstn_skipn.
Qed.

Lemma read_all_users_pages_compose_witness :
  (listed (read_all_users (VInt 1) (VInt 0) empty_db)
   ++ listed (read_all_users (VInt 2) (VInt (0 + 1))
                (snd (read_all_users (VInt 1) (VInt 0) empty_db))))%list
  = listed (read_all_users (VInt (1 + 2)) (VInt 0) empty_db).
Proof.
  apply read_all_users_pages_compose; [apply reach_empty|lia..].
Defined.

(** With a limit that covers the table, the first page lists every record
    of the table once. *)
Theorem read_all_users_lists_all st l :
  0 < l <= 1000 -> (List.length (users st) <= Z.to_nat l)%nat ->
  Permutation (listed (read_all_users (VInt l) (VInt 0) st)) (users st).
Proof.
  intros Hl Hlen.
  rewrite listed_read_all_users_fit by (unfold Sqlite.max_rowid; lia).
  cbn [Z.to_nat skipn]. rewrite firstn_all2.
  - apply order_by_id_desc_perm.
  - now rewrite (Permutation_length (order_by_id_desc_perm (users st))).
Qed.

Lemma read_all_users_lists_all_witness :
  let st := snd (exec (Create "2024-05-01 09:30:00" (VStr "Bob")
                              (VStr "bob@x.com")) empty_db) in
  Permutation (listed (read_all_users (VInt 100) (VInt 0) st)) (users st).
Proof.
  intros st. apply read_all_users_lists_all; [lia|].
  vm_compute. repeat constructor.
Defined.

(** The record just created heads the listing: after a successful
    [create_user], the first row of the first page is the new record,
    whatever the limit. *)
Theorem created_user_listed_first now name email st resp st' l :
  create_user now name email st = (Return resp, st') ->
  0 < l <= 1000 ->
  exists u rest,
    data resp = OneUser u
    /\ listed (read_all_users (VInt l) (VInt 0) st') = u :: rest.
Proof.
  intros Hrun Hl.
  apply create_user_success_inv in Hrun
    as (n & e & _ & _ & _ & _ & _ & -> & Hu & _).
  rewrite listed_read_all_users_fit by (unfold Sqlite.max_rowid; lia).
  rewrite Hu.
  rewrite order_by_id_desc_newest
    by (intros r Hr; now apply next_rowid_fresh).
  cbn [Z.to_nat skipn data].
  destruct (Z.to_nat l) as [|k] eqn:Ek; [lia|].
  cbn [firstn]. eauto.
Qed.

Lemma created_user_listed_first_witness :
  exists u rest,
    OneUser (mkRow 1 "Bob" "bob@x.com" (Some "2024-05-01 09:30:00"))
    = OneUser u
    /\ listed (read_all_users (VInt 5) (VInt 0)
                 (snd (create_user "2024-05-01 09:30:00" (VStr "Bob")
                                   (VStr "bob@x.com") empty_db)))
       = u :: rest.
Proof.
  apply (created_user_listed_first "2024-05-01 09:30:00" (VStr "Bob")
           (VStr "bob@x.com") empty_db
           (mkResponse true
              (OneUser (mkRow 1 "Bob" "bob@x.com"
                              (Some "2024-05-01 09:30:00")))
              (Some "User created successfully") None)).
  - reflexivity.
  - lia.
Defined.

(** ** Operations one after the other *)

Section Composition.
Import Sqlite.

Lemma filter_absent i rs :
  (forall r, In r rs -> col_id r <> i) ->
  filter (fun r => negb (id_eqb i r)) rs = rs.
Proof.
  intros H. apply forallb_filter_id. apply forallb_forall.
  intros r Hr. apply negb_true_iff. unfold id_eqb. apply Z.eqb_neq.
  now apply H.
Qed.

Lemma length_filter_deleted i rs r :
  NoDup (map col_id rs) -> In r rs -> col_id r = i ->
  List.length (filter (fun x => negb (id_eqb i x)) rs)
  = Nat.pred (List.length rs).
Proof.
  intros Hnd Hin Hid. induction rs as [|x rs IH]; [destruct Hin|].
  inversion Hnd as [|? ? Hx Hnd']; subst. cbn [filter].
  destruct (id_eqb (col_id r) x) eqn:E; cbn [negb List.length Nat.pred].
  - apply id_eqb_true in E. f_equal. apply filter_absent.
    intros y Hy Ey. apply Hx. rewrite E, <- Ey. now apply in_map.
  - destruct Hin as [->|Hin].
    + unfold id_eqb in E. rewrite Z.eqb_refl in E. discriminate.
    + rewrite (IH Hnd' Hin). destruct rs; [destruct Hin|reflexivity].
Qed.

End Composition.

(** The number of records moves with the calls that answer: one more after
    [create_user], one fewer after [delete_user], the same after the other
    operations. *)
Theorem record_count_after_call st c resp st' :
  reachable st -> exec c st = (Return resp, st') ->
  List.length (users st')
  = match c with
    | Create _ _ _ => S (List.length (users st))
    | Delete _ => Nat.pred (List.length (users st))
    | _ => List.length (users st)
    end.
Proof.
  intros Hreach Hrun. destruct (reachable_wf st Hreach) as [W1 Wc W2 W3 _ _].
  destruct c as [now name email|v|limit offset|v name email|v];
    cbn [exec] in Hrun.
  - apply create_user_success_inv in Hrun
      as (n & e & _ & _ & _ & _ & _ & _ & Hu & _).
    rewrite Hu, length_app. cbn. lia.
  - destruct (id_cases64 v) as [Hb | [(i & -> & Hi & Hm) | (i & -> & Hm)]];
      [rewrite read_user_bad_id in Hrun by assumption; discriminate|
      |rewrite read_user_overflow in Hrun by assumption; discriminate].
    rewrite read_user_run in Hrun by assumption. now injection Hrun as _ <-.
  - assert (Hu := users_after_read_all_users limit offset st).
    rewrite Hrun in Hu. cbn [snd] in Hu. now rewrite Hu.
  - apply update_user_success_inv in Hrun
      as (i & old & sn & se & _ & _ & _ & _ & _ & Hu & _).
    now rewrite Hu, length_map.
  - apply delete_user_success_inv in Hrun
      as (i & r & _ & _ & _ & Hfind & _ & Hu & _).
    apply find_id_some in Hfind as [Hin Hid].
    rewrite Hu. exact (length_filter_deleted i _ r W3 Hin Hid).
Qed.

Lemma record_count_after_call_witness :
  List.length
    (users (snd (exec (Create "2024-05-01 09:30:00" (VStr "Bob")
                              (VStr "bob@x.com")) empty_db)))
  = 1%nat.
Proof.
  apply (record_count_after_call empty_db
           (Create "2024-05-01 09:30:00" (VStr "Bob") (VStr "bob@x.com"))
           (mkResponse true
              (OneUser (mkRow 1 "Bob" "bob@x.com"
                              (Some "2024-05-01 09:30:00")))
              (Some "User created successfully") None)).
  - apply reach_empty.
  - reflexivity.
Defined.

(** Deleting the record just created gives the table of before back, and
    answers with that record; the sequence counter stays at the id that was
    used. *)
Theorem create_then_delete_restores_table now name email st resp st1 :
  create_user now name email st = (Return resp, st1) ->
  exists u resp' st2,
    data resp = OneUser u
    /\ delete_user (VInt (col_id u)) st1 = (Return resp', st2)
    /\ data resp' = OneUser u
    /\ users st2 = users st
    /\ seq st2 = col_id u.
Proof.
  intros Hrun.
  apply create_user_success_inv in Hrun
    as (n & e & _ & _ & _ & _ & _ & -> & Hu & Hs & _ & Hle).
  exists (mkRow (Sqlite.next_rowid st) (PyStr.strip n) (PyStr.strip e)
                (Some now)).
  cbn [data col_id].
  rewrite delete_user_run by (apply next_rowid_pos || assumption).
  rewrite Hu, find_new_row by reflexivity.
  do 2 eexists. split; [reflexivity|]. split; [reflexivity|].
  cbn [data users seq]. split; [reflexivity|]. split; [|exact Hs].
  rewrite filter_app. cbn [filter]. unfold Sqlite.id_eqb at 2.
  cbn [col_id]. rewrite Z.eqb_refl. cbn [negb]. rewrite app_nil_r.
  apply filter_absent. intros r Hr. apply next_rowid_fresh in Hr. lia.
Qed.

Lemma create_then_delete_restores_table_witness :
  exists u resp' st2,
    OneUser (mkRow 1 "Bob" "bob@x.com" (Some "2024-05-01 09:30:00"))
    = OneUser u
    /\ delete_user (VInt (col_id u))
         (snd (create_user "2024-05-01 09:30:00" (VStr "Bob")
                           (VStr "bob@x.com") empty_db))
       = (Return resp', st2)
    /\ data resp' = OneUser u
    /\ users st2 = users empty_db
    /\ seq st2 = col_id u.
Proof.
  apply (create_then_delete_restores_table "2024-05-01 09:30:00"
           (VStr "Bob") (VStr "bob@x.com") empty_db
           (mkResponse true
              (OneUser (mkRow 1 "Bob" "bob@x.com"
                              (Some "2024-05-01 09:30:00")))
              (Some "User created successfully") None)).
  reflexivity.
Defined.







(** A deleted id is gone for good: once [delete_user] answered for an id,
    then after any further calls a second [delete_user] and an
    [update_user] on that id raise the not-found error. *)
Theorem deleted_id_stays_deleted st i resp st' later name email :
  reachable st -> delete_user (VInt i) st = (Return resp, st') ->
  truthy name || truthy email = true ->
  fst (delete_user (VInt i) (run_calls later st')) = Raise (NotFoundError i)
  /\ fst (update_user (VInt i) name email (run_calls later st'))
     = Raise (NotFoundError i).
Proof.
  intros Hreach Hrun Hsup.
  destruct (reachable_wf st Hreach) as [W1 Wc W2 _ _ _].
  rewrite Forall_forall in W2.
  apply delete_user_success_inv in Hrun
    as (j & r & Ej & Hj & Hm & Hfind & _ & Hu & Hs & _).
  injection Ej as <-. apply find_id_some in Hfind as [Hin Hid].
  assert (Hret : retired i (run_calls later st')).
  { apply retired_run_calls. split.
    - rewrite Hs, <- Hid. apply (W2 r Hin).
    - rewrite Hu. apply find_id_none, find_filter_deleted. }
  destruct Hret as [_ Hnone]. apply find_id_none in Hnone.
  rewrite delete_user_run, update_user_run by assumption. cbv zeta.
  rewrite Hnone. now split.
Qed.

Lemma deleted_id_stays_deleted_witness :
  let st := snd (exec (Create "2024-05-01 09:30:00" (VStr "Bob")
                              (VStr "bob@x.com")) empty_db) in
  let later := [Create "2024-05-03 08:00:00" (VStr "Rob")
                       (VStr "bob@x.com")] in
  fst (delete_user (VInt 1)
         (run_calls later (snd (delete_user (VInt 1) st))))
  = Raise (NotFoundError 1).
Proof.
  intros st later.
  refine (proj1 (deleted_id_stays_deleted st 1
                   (mkResponse true
                      (OneUser (mkRow 1 "Bob" "bob@x.com"
                                      (Some "2024-05-01 09:30:00")))
                      (Some "User 1 deleted successfully") None)
                   (snd (delete_user (VInt 1) st)) later (VStr "x") VNone
                   _ _ _)).
  - apply reach_exec, reach_empty.
  - reflexivity.
  - reflexivity.
Defined.
